(** * multer-sharp: a shallow embedding of [src/index.js]

    The storage engine of multer-sharp resizes an uploaded image with sharp
    and streams it to Google Cloud Storage.  This development embeds the
    engine's constructor, its two verbs ([_handleFile], [_removeFile]), the
    transform-pipeline compiler ([transformer]) and [getFormat], and checks
    the statements of the specification against them.

    Modelling choices.
    - A JavaScript value is a term of [value]; numbers are IEEE-754 binary64
      floats (Rocq's primitive floats), plain objects are finite maps from
      property names to values.
    - The libraries the engine calls (mime-types, sharp, the storage client,
      crypto, user supplied strategy functions) and the built-ins whose
      algorithm is not part of this repository ([encodeURI], [parseInt],
      [ToString] on numbers and objects) are the fields of a [host] record.
    - External calls and invocations of the completion callback are recorded
      as a trace of [event]s, in the order in which the code performs them.

    What the model takes for granted.
    - Objects are plain data objects: no getters, no inherited data
      properties under the names the engine reads.
    - A strategy function supplied by the user calls its callback exactly
      once (the single-callback contract of section 4.1).
    - sharp and the storage client are black boxes: a call is recorded with
      its arguments, what the library does with them (including a refusal
      of the arguments) is not part of the model. *)

From Stdlib Require Import Floats.
From stdpp Require Import gmap strings list.

Open Scope string_scope.

Set Warnings "-register-all".

(** ** Values *)

Inductive value :=
| VUndef
| VNull
| VBool (b : bool)
| VNum (x : float)
| VStr (s : string)
| VObj (props : gmap string value)      (* a plain data object *)
| VError (name message : string)        (* an Error instance *)
| VFun (id : nat).                      (* a function supplied by the user *)

(** [ToBoolean]: the truthiness tested by [if], [||] and [&&]. *)
Definition ToBoolean (v : value) : bool :=
  match v with
  | VUndef | VNull => false
  | VBool b => b
  | VNum x => negb (PrimFloat.is_zero x || PrimFloat.is_nan x)
  | VStr s => negb (String.eqb s "")
  | VObj _ | VError _ _ | VFun _ => true
  end.

(** [a || b] *)
Definition js_or (a b : value) : value := if ToBoolean a then a else b.

Definition typeof (v : value) : string :=
  match v with
  | VUndef => "undefined"
  | VNull | VObj _ | VError _ _ => "object"
  | VBool _ => "boolean"
  | VNum _ => "number"
  | VStr _ => "string"
  | VFun _ => "function"
  end.

(** [o.k] on an object whose properties are [o]: a missing property reads
    as [undefined]. *)
Definition get (o : gmap string value) (k : string) : value :=
  default VUndef (o !! k).

(** [v.k] where [v] is known to be truthy (so neither [null] nor
    [undefined]).  Primitives, errors and functions carry none of the data
    properties the engine reads ([width], [height], [option], [type]). *)
Definition get_field (v : value) (k : string) : value :=
  match v with
  | VObj o => get o k
  | _ => VUndef
  end.

(** [v.length], read by the engine only after [typeof v === 'string']. *)
Definition js_length (v : value) : nat :=
  match v with
  | VStr s => String.length s
  | _ => 0
  end.

(** The result of evaluating code that may throw. *)
Inductive outcome (A : Type) :=
| Return (a : A)
| Throw (e : value).
Arguments Return {A} a.
Arguments Throw {A} e.

(** [Object.prototype.hasOwnProperty.call(v, k)] for the keys the engine
    asks about: it throws on [null] and [undefined], and is false on
    primitives, errors and functions. *)
Definition hasOwnProperty (v : value) (k : string) : outcome bool :=
  match v with
  | VUndef | VNull =>
      Throw (VError "TypeError" "Cannot convert undefined or null to object")
  | VObj o => Return (bool_decide (is_Some (o !! k)))
  | _ => Return false
  end.

(** [SameValueZero] on numbers, the comparison of [Array.prototype.includes]
    (which the array-includes package implements). *)
Definition SameValueZero (x y : float) : bool :=
  PrimFloat.eqb x y || (PrimFloat.is_nan x && PrimFloat.is_nan y).

(** [includes(l, v)] for an array literal [l] of numbers. *)
Definition includes (l : list float) (v : value) : bool :=
  match v with
  | VNum x => existsb (SameValueZero x) l
  | _ => false
  end.

(** [v === a] for a number [a]. *)
Definition strict_equals_num (v : value) (a : float) : bool :=
  match v with
  | VNum x => PrimFloat.eqb x a
  | _ => false
  end.

(** ** The host: libraries and built-ins outside this repository *)

Record host := Host {
  (* mime-types: lookup(x), a MIME type string or false *)
  lookup : value -> value;
  (* the built-in encodeURI *)
  encodeURI : string -> string;
  (* ToString on numbers, objects, errors and functions *)
  ToString_host : value -> string;
  (* parseInt(v, 10) *)
  parseInt10 : value -> value;
  (* sharp.gravity *)
  gravity : gmap string value;
  (* crypto.pseudoRandomBytes(size, cb): the error and the bytes given to
     cb; crypto gives [size] bytes when it gives no error *)
  pseudoRandomBytes : nat -> value * list Byte.byte;
  (* a user function called as f(req, file, cb): the (err, result) it
     passes to cb *)
  user_fn : nat -> value -> gmap string value -> value * value
}.

(** Lower-case hexadecimal, as [raw.toString('hex')] prints a buffer. *)
Definition hex_digit (n : N) : Ascii.ascii :=
  Ascii.ascii_of_N (if (n <? 10)%N then 48 + n else 87 + n)%N.

Definition hex_byte (b : Byte.byte) : string :=
  let n := Byte.to_N b in
  String (hex_digit (n / 16)) (String (hex_digit (n mod 16)) "").

Definition toString_hex (raw : list Byte.byte) : string :=
  foldr (fun b s => hex_byte b +:+ s) "" raw.

#[global] Instance outcome_bind : MBind outcome :=
  fun _ _ k m => match m with Return a => k a | Throw e => Throw e end.

(** ** Transform stages

    One constructor per sharp method the compiler may call, with the
    arguments of the call. *)
Inductive stage :=
| Resize (width height option : value)
| Background (v : value)
| Crop (v : value)
| Embed
| Max
| Min
| WithoutEnlargement
| IgnoreAspectRatio
| Extract (v : value)
| Trim (v : value)
| Flatten
| Extend (v : value)
| Negate
| Rotate (v : value)
| Flip
| Flop
| Blur (v : value)
| Sharpen (v : value)
| Gamma (v : value)
| Greyscale
| Normalise
| Convolve (v : value)
| Threshold (v : value)
| ToColourspace (v : value)
| WithMetadata (v : value)
| ToFormat1 (format : value)            (* toFormat(format) *)
| ToFormat2 (type option : value).      (* toFormat(type, option) *)

(** [if (c) imageStream = imageStream.s] *)
Definition stage_if (c : bool) (s : stage) : list stage :=
  if c then [s] else [].

(** ** Events

    What an observer of the engine sees: calls to the storage client and to
    sharp, console output, and calls of the completion callback [cb]. *)
Inductive event :=
| Gcloud (config : gmap string value)     (* gcloud(config) *)
| StorageBucket (name : value)            (* this.gcStorage.bucket(name) *)
| BucketFile (name : value)               (* this.gcsBucket.file(name) *)
| Pipe (stages : list stage)              (* file.stream.pipe(transformer(..)) *)
| CreateWriteStream (fileOptions : value) (* .pipe(gcFile.createWriteStream(..)) *)
| ConsoleInfo (info : value)              (* console.info(..) about info *)
| FileDelete                              (* gcFile.delete(cb) *)
| Cb (args : list value)                  (* cb(...args) *)
| Uncaught (e : value).                   (* an exception nobody catches *)

(** What the transform stream and the storage write stream emit after the
    pipes are set up. *)
Inductive stream_event :=
| TransformInfo (info : value)
| TransformError (e : value)
| WriteError (e : value)
| WriteFinish.

(** How many times the completion callback was called. *)
Definition is_cb (e : event) : bool :=
  match e with Cb _ => true | _ => false end.

Definition callback_count (t : list event) : nat := length (filter is_cb t).

(** ** The engine *)

(** The functions that can be stored in [this.getFilename] and
    [this.getDestination]. *)
Inductive strategy :=
| builtin_getDestination                  (* function getDestination *)
| builtin_getFilename                     (* function getFilename *)
| const_destination (d : value)           (* ($0, $1, cb) => cb(null, options.destination) *)
| user_strategy (f : value).              (* a value taken from the options *)

Record engine := Engine {
  options : gmap string value;
  getFilename : strategy;
  getDestination : strategy
}.

(** [MulterSharp.defaultOptions] *)
Definition defaultOptions : gmap string value :=
  list_to_map
    [ ("acl", VStr "private"); ("resize", VBool true); ("crop", VBool false);
      ("background", VBool false); ("embed", VBool false); ("max", VBool false);
      ("min", VBool false); ("withoutEnlargement", VBool false);
      ("ignoreAspectRatio", VBool false); ("extract", VBool false);
      ("trim", VBool false); ("flatten", VBool false); ("extend", VBool false);
      ("negate", VBool false); ("rotate", VBool false); ("flip", VBool false);
      ("flop", VBool false); ("blur", VBool false); ("sharpen", VBool false);
      ("gamma", VBool false); ("grayscale", VBool false);
      ("greyscale", VBool false); ("normalize", VBool false);
      ("normalise", VBool false); ("withMetadata", VBool false);
      ("convolve", VBool false); ("threshold", VBool false);
      ("toColourspace", VBool false); ("toColorspace", VBool false) ].

(** [process.env.k]: a string when the variable is set. *)
Definition env_get (env : gmap string string) (k : string) : value :=
  match env !! k with
  | Some s => VStr s
  | None => VUndef
  end.

(** [new MulterSharp(options)], for an options object with properties
    [options] and under the process environment [env]: the calls made to
    the storage client, and the engine or the exception thrown. *)
Definition constructor (env : gmap string string) (options : gmap string value)
  : list event * outcome engine :=
  let gc_bucket :=
    js_or (js_or (get options "bucket") (env_get env "GCS_BUCKET")) VNull in
  let gc_projectId :=
    js_or (js_or (get options "projectId") (env_get env "GCLOUD_PROJECT")) VNull in
  let gc_keyFilename :=
    js_or (js_or (get options "keyFilename") (env_get env "GCS_KEYFILE")) VNull in
  if negb (ToBoolean (get options "bucket")) then
    ([], Throw (VError "Error"
      "You have to specify bucket for Google Cloud Storage to work."))
  else if negb (ToBoolean (get options "projectId")) then
    ([], Throw (VError "Error"
      "You have to specify project id for Google Cloud Storage to work."))
  else if negb (ToBoolean (get options "keyFilename")) then
    ([], Throw (VError "Error"
      "You have to specify credentials key file for Google Cloud Storage to work."))
  else
    let this_options := options ∪ defaultOptions in
    let this_getFilename :=
      if ToBoolean (get this_options "filename")
      then user_strategy (get this_options "filename")
      else builtin_getFilename in
    let this_getDestination :=
      if String.eqb (typeof (get options "destination")) "string"
      then const_destination (get options "destination")
      else if ToBoolean (get options "destination")
      then user_strategy (get options "destination")
      else builtin_getDestination in
    ([ Gcloud {[ "projectId" := gc_projectId; "keyFilename" := gc_keyFilename ]};
       StorageBucket gc_bucket ],
     Return (Engine this_options this_getFilename this_getDestination)).

Section Engine.
Variable H : host.

(** [ToString], as a template literal applies it to an interpolated
    value. *)
Definition ToString (v : value) : string :=
  match v with
  | VUndef => "undefined"
  | VNull => "null"
  | VBool true => "true"
  | VBool false => "false"
  | VStr s => s
  | _ => ToString_host H v
  end.

(** *** function transformer(options) *)

(** The last conditional of [transformer], entered when [options.format]
    is truthy. *)
Definition format_stage (format : value) : outcome stage :=
  if String.eqb (typeof format) "object" then
    has_type ← hasOwnProperty format "type";
    if has_type : bool then
      has_option ← hasOwnProperty format "option";
      if has_option : bool
      then Return (ToFormat2 (get_field format "type") (get_field format "option"))
      else Return (ToFormat1 format)
    else Return (ToFormat1 format)
  else Return (ToFormat1 format).

(** The stages called before the output format, in the order of the
    source's conditionals. *)
Definition transformer_stages (options : gmap string value) : list stage :=
  let on k := ToBoolean (get options k) in
  stage_if (on "resize" && on "size")
    (Resize (get_field (get options "size") "width")
            (get_field (get options "size") "height")
            (get_field (get options "size") "option")) ++
  stage_if (on "background") (Background (get options "background")) ++
  stage_if (on "crop" &&
            bool_decide (is_Some (gravity H !! ToString (get options "crop"))))
    (Crop (get (gravity H) (ToString (get options "crop")))) ++
  stage_if (on "embed") Embed ++
  stage_if (on "max") Max ++
  stage_if (on "min") Min ++
  stage_if (on "withoutEnlargement") WithoutEnlargement ++
  stage_if (on "ignoreAspectRatio") IgnoreAspectRatio ++
  stage_if (on "extract") (Extract (get options "extract")) ++
  stage_if (on "trim") (Trim (parseInt10 H (get options "trim"))) ++
  stage_if (on "flatten") Flatten ++
  stage_if (on "extend") (Extend (get options "extend")) ++
  stage_if (on "negate") Negate ++
  stage_if (includes [0; 90; 180; 270]%float (get options "rotate"))
    (Rotate (get options "rotate")) ++
  stage_if (on "flip") Flip ++
  stage_if (on "flop") Flop ++
  stage_if (on "blur") (Blur (get options "blur")) ++
  stage_if (on "sharpen") (Sharpen (get options "sharpen")) ++
  stage_if (on "gamma") (Gamma (get options "gamma")) ++
  stage_if (on "grayscale" || on "greyscale") Greyscale ++
  stage_if (on "normalize" || on "normalise") Normalise ++
  stage_if (on "convolve") (Convolve (get options "convolve")) ++
  stage_if (on "threshold") (Threshold (get options "threshold")) ++
  stage_if (on "toColourspace" || on "toColorspace")
    (ToColourspace (js_or (get options "toColourspace")
                          (get options "toColorspace"))) ++
  stage_if (on "withMetadata") (WithMetadata (get options "withMetadata")).

(** The calls made on [sharp()], first to last. *)
Definition transformer (options : gmap string value) : outcome (list stage) :=
  if ToBoolean (get options "format") then
    s ← format_stage (get options "format");
    Return (transformer_stages options ++ [s])%list
  else Return (transformer_stages options).

(** *** function getFormat(format) *)
Definition getFormat (format : value) : outcome value :=
  if String.eqb (typeof format) "object" then
    has_type ← hasOwnProperty format "type";
    if has_type : bool
    then Return (lookup H (get_field format "type"))
    else Return (lookup H format)
  else Return (lookup H format).

(** *** Naming *)

(** Calling [this.getDestination] or [this.getFilename] with
    [(req, file, cb)]: the [(err, result)] handed to [cb]. *)
Definition call_strategy (s : strategy) (req : value)
    (file : gmap string value) : outcome (value * value) :=
  match s with
  | builtin_getDestination => Return (VNull, VStr "")
  | builtin_getFilename =>
      let '(err, raw) := pseudoRandomBytes H 16 in
      Return (err, if ToBoolean err then VUndef else VStr (toString_hex raw))
  | const_destination d => Return (VNull, d)
  | user_strategy (VFun id) => Return (user_fn H id req file)
  | user_strategy _ => Throw (VError "TypeError" "not a function")
  end.

(** [gcName] in [_handleFile] (line 59). *)
Definition handleFile_gcName (destination filename : value) : value :=
  if String.eqb (typeof destination) "string" && (0 <? js_length destination)%nat
  then VStr (ToString destination +:+ "/" +:+ ToString filename)
  else filename.

(** [gcName] in [_removeFile] (line 87). *)
Definition removeFile_gcName (destination : value)
    (file : gmap string value) : value :=
  if String.eqb (typeof destination) "string" && (0 <? js_length destination)%nat
  then VStr (ToString destination +:+ "/" +:+ ToString (get file "filename"))
  else get file "filename".

(** [if (err) cb(err);] *)
Definition report (err : value) : list event :=
  if ToBoolean err then [Cb [err]] else [].

(** *** _handleFile(req, file, cb) *)

(** The listeners registered on the transform stream and on the storage
    write stream.  The info listener reads [info.format] before it prints
    anything, which throws when [info] is [null] or [undefined]. *)
Definition stream_listener (this : engine) (file : gmap string value)
    (gcName filename : value) (ev : stream_event) : list event :=
  match ev with
  | TransformInfo info =>
      match info with
      | VUndef | VNull =>
          [Uncaught (VError "TypeError"
             "Cannot read property 'format' of undefined or null")]
      | _ => [ConsoleInfo info; ConsoleInfo info]
      end
  | TransformError transformErr => [Cb [transformErr]]
  | WriteError gcErr => [Cb [gcErr]]
  | WriteFinish =>
      let uri :=
        encodeURI H ("https://storage.googleapis.com/" +:+
                     ToString (get (options this) "bucket") +:+ "/" +:+
                     ToString gcName) in
      match getFormat (get (options this) "format") with
      | Throw e => [Uncaught e]
      | Return mime =>
          [Cb [VNull;
               VObj {[ "mimetype" := js_or mime (get file "mimetype");
                       "path" := VStr uri;
                       "filename" := filename ]}]]
      end
  end.

(** The trace of one upload; [stream] is what the two streams emit once
    the pipes are in place, each event answered by its listener.  An
    exception that leaves a listener is recorded as [Uncaught]; events
    listed after it are those of a process that survives the exception. *)
Definition _handleFile (this : engine) (req : value)
    (file : gmap string value) (stream : list stream_event) : list event :=
  match call_strategy (getDestination this) req file with
  | Throw e => [Uncaught e]
  | Return (destErr, destination) =>
    report destErr ++
    match call_strategy (getFilename this) req file with
    | Throw e => [Uncaught e]
    | Return (fileErr, filename) =>
      report fileErr ++
      match getFormat (get (options this) "format") with
      | Throw e => [Uncaught e]
      | Return mime =>
        let fileOptions :=
          VObj {[ "predefinedAcl" := get (options this) "acl";
                  "metadata" :=
                    VObj {[ "contentType" := js_or mime (get file "mimetype") ]} ]} in
        let gcName := handleFile_gcName destination filename in
        BucketFile gcName ::
        match transformer (options this) with
        | Throw e => [Uncaught e]
        | Return stages =>
          Pipe stages :: CreateWriteStream fileOptions ::
          flat_map (stream_listener this file gcName filename) stream
        end
      end
    end
  end.

(** *** _removeFile(req, file, cb)

    [reply] is the argument list with which the storage client calls the
    callback given to [delete]. *)
Definition _removeFile (this : engine) (req : value)
    (file : gmap string value) (reply : list value) : list event :=
  match call_strategy (getDestination this) req file with
  | Throw e => [Uncaught e]
  | Return (destErr, destination) =>
    report destErr ++
    [BucketFile (removeFile_gcName destination file); FileDelete; Cb reply]
  end.

End Engine.

(** ** The statements of the specification, as predicates *)

(** "One of the four cardinal values {0, 90, 180, 270}": strictly equal
    ([===]) to one of them. *)
Definition cardinal_angle (v : value) : Prop :=
  ∃ a, a ∈ [0; 90; 180; 270]%float ∧ strict_equals_num v a = true.

(** The position of a stage in the ordered list of section 4.2. *)
Definition position (s : stage) : nat :=
  match s with
  | Resize _ _ _ => 1
  | Background _ => 2
  | Crop _ => 3
  | Embed => 4
  | Max => 5
  | Min => 6
  | WithoutEnlargement => 7
  | IgnoreAspectRatio => 8
  | Extract _ => 9
  | Trim _ => 10
  | Flatten => 11
  | Extend _ => 12
  | Negate => 13
  | Rotate _ => 14
  | Flip => 15
  | Flop => 16
  | Blur _ => 17
  | Sharpen _ => 18
  | Gamma _ => 19
  | Greyscale => 20
  | Normalise => 21
  | Convolve _ => 22
  | Threshold _ => 23
  | ToColourspace _ => 24
  | WithMetadata _ => 25
  | ToFormat1 _ | ToFormat2 _ _ => 26
  end.

(** A structured [{type, option}] format spec. *)
Definition structured_format (f : value) : Prop :=
  ∃ props, f = VObj props ∧ is_Some (props !! "type") ∧ is_Some (props !! "option").

(** When section 4.2 has a stage in the pipeline: its toggle is truthy and
    its guard passes; the arguments are those configured.  For rotate the
    condition is the whitelist alone. *)
Definition inserted (H : host) (o : gmap string value) (s : stage) : Prop :=
  let on k := ToBoolean (get o k) = true in
  match s with
  | Resize w h opt =>
      on "resize" ∧ on "size" ∧
      w = get_field (get o "size") "width" ∧
      h = get_field (get o "size") "height" ∧
      opt = get_field (get o "size") "option"
  | Background v => on "background" ∧ v = get o "background"
  | Crop v =>
      on "crop" ∧ is_Some (gravity H !! ToString H (get o "crop")) ∧
      v = get (gravity H) (ToString H (get o "crop"))
  | Embed => on "embed"
  | Max => on "max"
  | Min => on "min"
  | WithoutEnlargement => on "withoutEnlargement"
  | IgnoreAspectRatio => on "ignoreAspectRatio"
  | Extract v => on "extract" ∧ v = get o "extract"
  | Trim v => on "trim" ∧ v = parseInt10 H (get o "trim")
  | Flatten => on "flatten"
  | Extend v => on "extend" ∧ v = get o "extend"
  | Negate => on "negate"
  | Rotate v => cardinal_angle (get o "rotate") ∧ v = get o "rotate"
  | Flip => on "flip"
  | Flop => on "flop"
  | Blur v => on "blur" ∧ v = get o "blur"
  | Sharpen v => on "sharpen" ∧ v = get o "sharpen"
  | Gamma v => on "gamma" ∧ v = get o "gamma"
  | Greyscale => on "grayscale" ∨ on "greyscale"
  | Normalise => on "normalize" ∨ on "normalise"
  | Convolve v => on "convolve" ∧ v = get o "convolve"
  | Threshold v => on "threshold" ∧ v = get o "threshold"
  | ToColourspace v =>
      (on "toColourspace" ∨ on "toColorspace") ∧
      v = js_or (get o "toColourspace") (get o "toColorspace")
  | WithMetadata v => on "withMetadata" ∧ v = get o "withMetadata"
  | ToFormat1 f =>
      on "format" ∧ ¬ structured_format (get o "format") ∧ f = get o "format"
  | ToFormat2 t opt =>
      on "format" ∧ structured_format (get o "format") ∧
      t = get_field (get o "format") "type" ∧
      opt = get_field (get o "format") "option"
  end.

(** The object key of section 4.1, on strings. *)
Definition object_key (d f : string) : string :=
  if decide (d = "") then f else d +:+ "/" +:+ f.

(** ** A concrete host, for the examples *)

(** [encodeURI] on a string read as UTF-8 bytes: every byte outside the
    unescaped set becomes [%XX]. *)
Definition uri_unescaped (c : Ascii.ascii) : bool :=
  let n := Ascii.N_of_ascii c in
  ((48 <=? n) && (n <=? 57) || (65 <=? n) && (n <=? 90) ||
   (97 <=? n) && (n <=? 122))%N ||
  existsb (Ascii.eqb c) (String.list_ascii_of_string ";/?:@&=+$,#-_.!~*'()").

Definition upper_hex_digit (n : N) : Ascii.ascii :=
  Ascii.ascii_of_N (if (n <? 10)%N then 48 + n else 55 + n)%N.

Fixpoint encodeURI_utf8 (s : string) : string :=
  match s with
  | EmptyString => EmptyString
  | String c r =>
      if uri_unescaped c then String c (encodeURI_utf8 r)
      else
        let n := Ascii.N_of_ascii c in
        String (Ascii.ascii_of_N 37) (String (upper_hex_digit (n / 16))
                   (String (upper_hex_digit (n mod 16)) (encodeURI_utf8 r)))
  end.

(** [lookup] of mime-types, with an excerpt of its table: the answer is
    [false] for what is not a string and for an extension the table does
    not have. *)
Definition sample_lookup (v : value) : value :=
  match v with
  | VStr s =>
      if String.eqb s "png" then VStr "image/png"
      else if String.eqb s "jpeg" then VStr "image/jpeg"
      else if String.eqb s "webp" then VStr "image/webp"
      else VBool false
  | _ => VBool false
  end.

(** [sharp.gravity] *)
Definition sample_gravity : gmap string value :=
  list_to_map
    [ ("center", VNum 0); ("centre", VNum 0); ("north", VNum 1);
      ("east", VNum 2); ("south", VNum 3); ("west", VNum 4);
      ("northeast", VNum 5); ("southeast", VNum 6); ("southwest", VNum 7);
      ("northwest", VNum 8) ]%float.

(** Three user strategies: 0 fails, 1 names the file, 2 names a folder. *)
Definition sample_user_fn (id : nat) (req : value) (file : gmap string value)
  : value * value :=
  match id with
  | 0 => (VError "Error" "no destination", VUndef)
  | 1 => (VNull, VStr "avatar.png")
  | 2 => (VNull, VStr "public/img")
  | _ => (VNull, VUndef)
  end.

Definition sample_host : host :=
  {| lookup := sample_lookup;
     encodeURI := encodeURI_utf8;
     ToString_host := fun v =>
       match v with
       | VError name message => name +:+ ": " +:+ message
       | _ => "[object Object]"
       end;
     parseInt10 := fun v =>
       match v with VNum x => VNum x | _ => VNum PrimFloat.nan end;
     gravity := sample_gravity;
     pseudoRandomBytes := fun size =>
       (VNull,
        take size
          ([Byte.x00; Byte.x01; Byte.x02; Byte.x03; Byte.x04; Byte.x05;
            Byte.x06; Byte.x07; Byte.x08; Byte.x09; Byte.x0a; Byte.x0b;
            Byte.x0c; Byte.x0d; Byte.x0e; Byte.xff] ++ replicate size Byte.x00));
     user_fn := sample_user_fn |}.

(** The three required options, and a PNG upload. *)
Definition required_options : gmap string value :=
  {[ "bucket" := VStr "b"; "projectId" := VStr "p"; "keyFilename" := VStr "k" ]}.

Definition png_file : gmap string value :=
  {[ "fieldname" := VStr "pic"; "mimetype" := VStr "image/png" ]}.

(** An environment in which the three fallback variables are set. *)
Definition full_environment : gmap string string :=
  {[ "GCS_BUCKET" := "b"; "GCLOUD_PROJECT" := "p"; "GCS_KEYFILE" := "k" ]}.

(** The engine built from [options], when construction succeeds. *)
Definition engine_of (options : gmap string value) : option engine :=
  match constructor ∅ options with
  | (_, Return e) => Some e
  | (_, Throw _) => None
  end.

(** Options for the examples: a destination strategy that fails (user
    function 0) beside a filename strategy that works (user function 1); a
    folder with an output format given by name; an output format given as
    sharp gives its formats, an object with an [id] (as [sharp.format.jpeg]
    is); a [{type}] object with a MIME type, and one without (the [id] is
    what sharp reads from it). *)
Definition failing_destination_options : gmap string value :=
  <["destination" := VFun 0]> (<["filename" := VFun 1]> required_options).

Definition jpeg_options : gmap string value :=
  <["destination" := VStr "public/img"]>
    (<["filename" := VFun 1]> (<["format" := VStr "jpeg"]> required_options)).

Definition sharp_format_options : gmap string value :=
  <["filename" := VFun 1]>
    (<["format" := VObj {[ "id" := VStr "jpeg" ]}]> required_options).

Definition png_type_options : gmap string value :=
  <["filename" := VFun 1]>
    (<["format" := VObj {[ "type" := VStr "png" ]}]> required_options).

Definition openslide_type_options : gmap string value :=
  <["filename" := VFun 1]>
    (<["format" := VObj {[ "id" := VStr "jpeg"; "type" := VStr "openslide" ]}]>
       required_options).

(** The engines the constructor builds from these options. *)
Definition failing_destination_engine : engine :=
  Engine (failing_destination_options ∪ defaultOptions)
         (user_strategy (VFun 1)) (user_strategy (VFun 0)).

Definition jpeg_engine : engine :=
  Engine (jpeg_options ∪ defaultOptions)
         (user_strategy (VFun 1)) (const_destination (VStr "public/img")).

Definition sharp_format_engine : engine :=
  Engine (sharp_format_options ∪ defaultOptions)
         (user_strategy (VFun 1)) builtin_getDestination.

Definition png_type_engine : engine :=
  Engine (png_type_options ∪ defaultOptions)
         (user_strategy (VFun 1)) builtin_getDestination.

Definition openslide_type_engine : engine :=
  Engine (openslide_type_options ∪ defaultOptions)
         (user_strategy (VFun 1)) builtin_getDestination.

(** ** Further definitions used by the statements below *)



(** What sharp reports about a 100 by 100 PNG. *)
Definition png_info : value :=
  VObj {[ "format" := VStr "png"; "width" := VNum 100; "height" := VNum 100 ]}.

(** The engine the constructor assigns to [this] when the validation
    passes (lines 29 to 36). *)
Definition built_engine (opts : gmap string value) : engine :=
  Engine (opts ∪ defaultOptions)
    (if ToBoolean (get (opts ∪ defaultOptions) "filename")
     then user_strategy (get (opts ∪ defaultOptions) "filename")
     else builtin_getFilename)
    (if String.eqb (typeof (get opts "destination")) "string"
     then const_destination (get opts "destination")
     else if ToBoolean (get opts "destination")
     then user_strategy (get opts "destination")
     else builtin_getDestination).

(** A lower-case hexadecimal digit. *)
Definition is_hex_digit (c : Ascii.ascii) : bool :=
  let n := Ascii.N_of_ascii c in
  ((48 <=? n) && (n <=? 57) || (97 <=? n) && (n <=? 102))%N.

(** The options [transformer] reads. *)
Definition transform_keys : list string :=
  [ "resize"; "size"; "background"; "crop"; "embed"; "max"; "min";
    "withoutEnlargement"; "ignoreAspectRatio"; "extract"; "trim"; "flatten";
    "extend"; "negate"; "rotate"; "flip"; "flop"; "blur"; "sharpen"; "gamma";
    "grayscale"; "greyscale"; "normalize"; "normalise"; "convolve";
    "threshold"; "toColourspace"; "toColorspace"; "withMetadata"; "format" ].

(** An environment whose variables differ from [required_options]. *)
Definition other_environment : gmap string string :=
  {[ "GCS_BUCKET" := "env-bucket"; "GCLOUD_PROJECT" := "env-project";
     "GCS_KEYFILE" := "env-key" ]}.

(** A filename given as a string instead of a function; a format set to
    [null]. *)
Definition string_filename_options : gmap string value :=
  <["filename" := VStr "avatar.png"]> required_options.

Definition null_format_options : gmap string value :=
  <["format" := VNull]> required_options.

(** A host whose source of randomness fails, and an engine that names its
    files by default under the folder [public/img]. *)
Definition failing_random_host : host :=
  {| lookup := lookup sample_host;
     encodeURI := encodeURI sample_host;
     ToString_host := ToString_host sample_host;
     parseInt10 := parseInt10 sample_host;
     gravity := gravity sample_host;
     pseudoRandomBytes := fun _ => (VError "Error" "no entropy", []);
     user_fn := user_fn sample_host |}.

Definition default_naming_engine : engine :=
  Engine (required_options ∪ defaultOptions)
         builtin_getFilename (const_destination (VStr "public/img")).

(** * Properties *)

(** ** Basic facts about the JavaScript operations *)

Lemma typeof_string v : String.eqb (typeof v) "string" = true ↔ ∃ s, v = VStr s.
Proof.
  split.
  - destruct v; simpl; try discriminate. eauto.
  - intros [s ->]. reflexivity.
Qed.

Lemma length_pos_nonempty s : (0 <? String.length s)%nat = true ↔ s ≠ "".
Proof.
  destruct s; simpl; split; try done.
Qed.

Lemma get_insert_eq (o : gmap string value) k v : get (<[k := v]> o) k = v.
Proof. unfold get. by rewrite lookup_insert_eq. Qed.

Lemma get_insert_ne (o : gmap string value) k k' v :
  k ≠ k' → get (<[k := v]> o) k' = get o k'.
Proof. intros. unfold get. by rewrite lookup_insert_ne. Qed.

Lemma get_delete_eq (o : gmap string value) k : get (delete k o) k = VUndef.
Proof. unfold get. by rewrite lookup_delete_eq. Qed.

Lemma get_delete_ne (o : gmap string value) k k' :
  k ≠ k' → get (delete k o) k' = get o k'.
Proof. intros. unfold get. by rewrite lookup_delete_ne. Qed.

Lemma get_absent (o : gmap string value) k : o !! k = None → get o k = VUndef.
Proof. unfold get. by intros ->. Qed.

(** ** The object key without a destination (C9) *)

(** C9. The key computation is total: for every destination value that is
    not a string, or is the empty string, both paths return the filename
    alone. *)
Theorem object_key_without_destination (H : host)
    (destination filename : value) (file : gmap string value) :
  (∀ s, destination = VStr s → s = "") →
  handleFile_gcName H destination filename = filename ∧
  removeFile_gcName H destination file = get file "filename".
Proof.
  intros Hd. unfold handleFile_gcName, removeFile_gcName.
  destruct destination as [| | | |s| | |]; simpl; try done.
  rewrite (Hd s eq_refl). done.
Qed.

Lemma object_key_without_destination_witness :
  handleFile_gcName sample_host VUndef (VStr "avatar.png") = VStr "avatar.png" ∧
  removeFile_gcName sample_host VUndef {[ "filename" := VStr "avatar.png" ]}
    = get {[ "filename" := VStr "avatar.png" ]} "filename".
Proof.
  apply (object_key_without_destination sample_host VUndef).
  intros s Hs. discriminate Hs.
Defined.

(** ** Construction (C3, C8) *)

Lemma constructor_falsy env options :
  ToBoolean (get options "bucket") = false ∨
  ToBoolean (get options "projectId") = false ∨
  ToBoolean (get options "keyFilename") = false →
  ∃ msg, constructor env options = ([], Throw (VError "Error" msg)).
Proof.
  intros Hf. unfold constructor.
  destruct (ToBoolean (get options "bucket")); simpl; [|eauto].
  destruct (ToBoolean (get options "projectId")); simpl; [|eauto].
  destruct (ToBoolean (get options "keyFilename")); simpl; [|eauto].
  destruct Hf as [Hf | [Hf | Hf]]; discriminate Hf.
Qed.

(** The fallbacks read from the environment never reach the storage
    client: what the constructor does is the same under every
    environment. *)
Lemma constructor_env_irrelevant env env' options :
  constructor env options = constructor env' options.
Proof.
  unfold constructor.
  destruct (ToBoolean (get options "bucket")) eqn:Hb; simpl; [|done].
  destruct (ToBoolean (get options "projectId")) eqn:Hp; simpl; [|done].
  destruct (ToBoolean (get options "keyFilename")) eqn:Hk; simpl; [|done].
  unfold js_or. rewrite Hb, Hp, Hk. simpl. rewrite Hb, Hp, Hk. done.
Qed.

(** C3. For every options object lacking one of [bucket], [projectId],
    [keyFilename], construction throws an [Error], and it throws before any
    call to the storage client: the trace of calls is empty. *)
Theorem constructor_requires_all (env : gmap string string)
    (options : gmap string value) :
  options !! "bucket" = None ∨ options !! "projectId" = None ∨
  options !! "keyFilename" = None →
  ∃ msg, constructor env options = ([], Throw (VError "Error" msg)).
Proof.
  intros Hm. apply constructor_falsy.
  destruct Hm as [Hm | [Hm | Hm]]; rewrite (get_absent _ _ Hm); auto.
Qed.

Lemma constructor_requires_all_witness :
  ∃ msg,
    constructor ∅ {[ "bucket" := VStr "b"; "projectId" := VStr "p" ]}
      = ([], Throw (VError "Error" msg)).
Proof.
  apply (constructor_requires_all ∅
           {[ "bucket" := VStr "b"; "projectId" := VStr "p" ]}).
  right. right. vm_compute. reflexivity.
Defined.

(** C8. The validation tests the fields of the options object: when one
    of them is missing or falsy the constructor throws whatever the
    environment variables are, and no value read from the environment
    changes what the constructor does. *)
Theorem validation_ignores_environment (env : gmap string string)
    (options : gmap string value) :
  ToBoolean (get options "bucket") = false ∨
  ToBoolean (get options "projectId") = false ∨
  ToBoolean (get options "keyFilename") = false →
  (∃ msg, constructor env options = ([], Throw (VError "Error" msg))) ∧
  (ToBoolean (get options "bucket") = false →
   constructor env options =
     ([], Throw (VError "Error"
        "You have to specify bucket for Google Cloud Storage to work."))) ∧
  constructor env options = constructor ∅ options.
Proof.
  intros Hf. split; [by apply constructor_falsy|]. split.
  - intros Hb. unfold constructor. by rewrite Hb.
  - apply constructor_env_irrelevant.
Qed.

Lemma validation_ignores_environment_witness :
  (∃ msg, constructor full_environment
            {[ "bucket" := VStr ""; "projectId" := VStr "p";
               "keyFilename" := VStr "k" ]}
          = ([], Throw (VError "Error" msg))) ∧
  (ToBoolean (get {[ "bucket" := VStr ""; "projectId" := VStr "p";
                     "keyFilename" := VStr "k" ]} "bucket") = false →
   constructor full_environment
     {[ "bucket" := VStr ""; "projectId" := VStr "p";
        "keyFilename" := VStr "k" ]} =
     ([], Throw (VError "Error"
        "You have to specify bucket for Google Cloud Storage to work."))) ∧
  constructor full_environment
    {[ "bucket" := VStr ""; "projectId" := VStr "p";
       "keyFilename" := VStr "k" ]}
  = constructor ∅
    {[ "bucket" := VStr ""; "projectId" := VStr "p";
       "keyFilename" := VStr "k" ]}.
Proof.
  apply (validation_ignores_environment full_environment).
  left. vm_compute. reflexivity.
Defined.

(** ** The transform pipeline (C4, C5, C6) *)

Lemma elem_of_stage_if c t s : s ∈ stage_if c t ↔ c = true ∧ s = t.
Proof.
  destruct c; simpl.
  - rewrite list_elem_of_singleton. intuition congruence.
  - rewrite elem_of_nil. intuition congruence.
Qed.

Lemma position_stage_if c t :
  position <$> stage_if c t `sublist_of` [position t].
Proof. destruct c; simpl; [done | apply sublist_nil_l]. Qed.

(** [includes([0, 90, 180, 270], v)] holds exactly for the values strictly
    equal to one of the four angles: none of them is NaN, on which alone
    SameValueZero and [===] differ. *)
Lemma includes_cardinal v :
  includes [0; 90; 180; 270]%float v = true ↔ cardinal_angle v.
Proof.
  unfold cardinal_angle. destruct v as [| | |x| | | |]; simpl;
    try (split; [discriminate | by intros (? & _ & ?)]).
  unfold SameValueZero.
  change (PrimFloat.is_nan 0) with false.
  change (PrimFloat.is_nan 90) with false.
  change (PrimFloat.is_nan 180) with false.
  change (PrimFloat.is_nan 270) with false.
  rewrite !andb_false_r, !orb_false_r, !orb_true_iff.
  split.
  - intros [? | [? | [? | ?]]]; eexists; (split; [|eassumption]);
      repeat first [apply list_elem_of_here | apply list_elem_of_further].
  - intros (a & Ha & Hx). rewrite !elem_of_cons, elem_of_nil in Ha.
    destruct Ha as [-> | [-> | [-> | [-> | []]]]]; auto.
Qed.

Lemma includes_not_cardinal v :
  ¬ cardinal_angle v → includes [0; 90; 180; 270]%float v = false.
Proof.
  intros Hn. destruct (includes _ v) eqn:Hi; [|done].
  by apply includes_cardinal in Hi.
Qed.

(** [transformer] never throws: the only operation in it that can,
    [hasOwnProperty], is applied to a truthy format. *)
Lemma format_stage_returns f :
  ToBoolean f = true → ∃ s, format_stage f = Return s ∧ position s = 26.
Proof.
  intros Hf. unfold format_stage.
  destruct f; simpl in *; try discriminate; eauto.
  repeat case_bool_decide; simpl; eauto.
Qed.

Lemma transformer_returns (H : host) opts :
  ∃ l, transformer H opts = Return l.
Proof.
  unfold transformer. destruct (ToBoolean (get opts "format")) eqn:Hf; [|eauto].
  destruct (format_stage_returns _ Hf) as (s & -> & _). simpl. eauto.
Qed.

(** The stages before the output format depend on the rotate option only
    through the whitelist test. *)
Lemma transformer_stages_delete_rotate (H : host) opts :
  includes [0; 90; 180; 270]%float (get opts "rotate") = false →
  transformer_stages H (delete "rotate" opts) = transformer_stages H opts.
Proof.
  intros Hi. unfold transformer_stages.
  rewrite Hi, get_delete_eq. simpl.
  by rewrite !get_delete_ne by done.
Qed.

Lemma transformer_delete_rotate (H : host) opts :
  includes [0; 90; 180; 270]%float (get opts "rotate") = false →
  transformer H (delete "rotate" opts) = transformer H opts.
Proof.
  intros Hi. unfold transformer.
  rewrite transformer_stages_delete_rotate by done.
  by rewrite !get_delete_ne by done.
Qed.

(** Choose, in a chain of disjunctions, the disjunct about the stage at
    hand. *)
Ltac pick_disjunct :=
  first [ split; [|reflexivity] | left; split; [|reflexivity] | right; pick_disjunct ].

(** Membership in the stages before the output format. *)
Lemma elem_of_transformer_stages (H : host) o s :
  s ∈ transformer_stages H o ↔ position s ≠ 26 ∧ inserted H o s.
Proof.
  unfold transformer_stages.
  rewrite !elem_of_app, !elem_of_stage_if, includes_cardinal.
  rewrite !andb_true_iff, !orb_true_iff, bool_decide_eq_true.
  split.
  - intros Hs.
    repeat (destruct Hs as [Hs | Hs]); destruct Hs as [Hc ->]; simpl;
      (split; [discriminate | tauto]).
  - intros [Hp Hi].
    destruct s; simpl in Hp, Hi; try (exfalso; apply Hp; reflexivity);
      destruct_and?; subst; pick_disjunct; tauto.
Qed.

Lemma sublist_cons_app {A} (l1 l2 : list A) x k :
  l1 `sublist_of` [x] → l2 `sublist_of` k → (l1 ++ l2)%list `sublist_of` x :: k.
Proof. apply (sublist_app l1 [x] l2 k). Qed.

Lemma position_transformer_stages (H : host) o :
  position <$> transformer_stages H o `sublist_of` seq 1 25.
Proof.
  unfold transformer_stages. cbn [seq].
  repeat (rewrite fmap_app; apply sublist_cons_app;
          [apply position_stage_if|]).
  apply position_stage_if.
Qed.

Lemma format_stage_spec f :
  ToBoolean f = true →
  (structured_format f ∧
   format_stage f = Return (ToFormat2 (get_field f "type") (get_field f "option"))) ∨
  (¬ structured_format f ∧ format_stage f = Return (ToFormat1 f)).
Proof.
  intros Hf. unfold format_stage, structured_format.
  destruct f as [| | | | |props| |]; simpl in *; try discriminate;
    try (right; split; [by intros (? & ? & _) | reflexivity]).
  repeat case_bool_decide; simpl.
  - left. eauto.
  - right. split; [|done]. intros (? & [= <-] & _ & ?). done.
  - right. split; [|done]. intros (? & [= <-] & ? & _). done.
Qed.

(** The compiled pipeline, characterised: it is returned (no exception),
    its stages stand in the order of section 4.2, and a stage is in it
    exactly when [inserted] says so. *)
Lemma transformer_characterised (H : host) (opts : gmap string value) :
  ∃ l, transformer H opts = Return l ∧
       position <$> l `sublist_of` seq 1 26 ∧
       ∀ s, s ∈ l ↔ inserted H opts s.
Proof.
  unfold transformer.
  destruct (ToBoolean (get opts "format")) eqn:Hf.
  - destruct (format_stage_spec _ Hf) as [[Hs ->] | [Hs ->]]; simpl;
      eexists; (split; [reflexivity|]); split.
    + rewrite fmap_app. apply (sublist_app _ (seq 1 25) _ [26]); [|done].
      apply position_transformer_stages.
    + intros s. rewrite elem_of_app, elem_of_transformer_stages,
        list_elem_of_singleton.
      destruct s; simpl; try (intuition (discriminate || congruence)).
    + rewrite fmap_app. apply (sublist_app _ (seq 1 25) _ [26]); [|done].
      apply position_transformer_stages.
    + intros s. rewrite elem_of_app, elem_of_transformer_stages,
        list_elem_of_singleton.
      destruct s; simpl; try (intuition (discriminate || congruence)).
  - eexists; split; [reflexivity|]; split.
    + apply (sublist_inserts_r [26] _ (seq 1 25)).
      apply position_transformer_stages.
    + intros s. rewrite elem_of_transformer_stages.
      destruct s; simpl; try (intuition (discriminate || congruence)).
Qed.

Lemma transformer_stages_head (H : host) opts :
  ToBoolean (get opts "resize") = true → ToBoolean (get opts "size") = true →
  ∃ rest,
    transformer_stages H opts =
      Resize (get_field (get opts "size") "width")
             (get_field (get opts "size") "height")
             (get_field (get opts "size") "option") :: rest.
Proof.
  intros Hr Hs. unfold transformer_stages. rewrite Hr, Hs. simpl. eauto.
Qed.

Example default_pipeline_is_empty :
  transformer sample_host (required_options ∪ defaultOptions) = Return [].
Proof. vm_compute. reflexivity. Qed.

Example rotate_string_is_ignored :
  transformer sample_host
    (<["rotate" := VStr "90"]> (required_options ∪ defaultOptions))
  = Return [].
Proof. vm_compute. reflexivity. Qed.

Example pipeline_in_order :
  transformer sample_host
    (<["format" := VStr "jpeg"]>
       (<["greyscale" := VBool true]>
          (<["flip" := VBool true]>
             (<["rotate" := VNum 90]>
                (<["crop" := VStr "north"]>
                   (<["size" := VObj {[ "width" := VNum 100 ]}]>
                      (required_options ∪ defaultOptions)))))))
  = Return [ Resize (VNum 100) VUndef VUndef; Crop (VNum 1); Rotate (VNum 90);
             Flip; Greyscale; ToFormat1 (VStr "jpeg") ].
Proof. vm_compute. reflexivity. Qed.

(** C4 (as amended). For every configuration the compiled pipeline is
    returned without an exception; its stages stand in the fixed order of
    the 26 positions of section 4.2 (their positions form a subsequence of
    1..26, no stage occurs twice, a resize stage is the first and an output
    format stage the last); and a stage is in the pipeline exactly when
    [inserted] holds: for every stage but rotate, when its toggle is truthy
    and its guard passes; for rotate, when the value is one of 0, 90, 180,
    270.  A stage whose condition fails is absent from the pipeline. *)
Theorem pipeline_order_and_toggles (H : host) (opts : gmap string value) :
  ∃ l, transformer H opts = Return l ∧
       position <$> l `sublist_of` seq 1 26 ∧
       (∀ s, s ∈ l ↔ inserted H opts s) ∧
       (∀ w h o, Resize w h o ∈ l → ∃ rest, l = Resize w h o :: rest) ∧
       (∀ s, s ∈ l → position s = 26 → ∃ front, l = (front ++ [s])%list).
Proof.
  destruct (transformer_characterised H opts) as (l & Hl & Hpos & Hin).
  exists l. do 3 (split; [done|]).
  unfold transformer in Hl. split.
  - intros w h o Hr. apply Hin in Hr as (Hr & Hs & -> & -> & ->).
    destruct (transformer_stages_head H opts Hr Hs) as [rest Hrest].
    rewrite Hrest in Hl.
    destruct (ToBoolean (get opts "format")).
    + destruct (format_stage (get opts "format")); simpl in Hl;
        [|discriminate].
      injection Hl as <-. eauto.
    + injection Hl as <-. eauto.
  - intros s Hs Hp.
    destruct (ToBoolean (get opts "format")).
    + destruct (format_stage (get opts "format")) as [fs|]; simpl in Hl;
        [|discriminate].
      injection Hl as <-. apply elem_of_app in Hs as [Hs | Hs].
      * apply elem_of_transformer_stages in Hs as [Hs _]. done.
      * apply list_elem_of_singleton in Hs as ->. eauto.
    + injection Hl as <-.
      apply elem_of_transformer_stages in Hs as [Hs _]. done.
Qed.

(** C4, as stated, fails for rotate: the value 0 is falsy, and the
    pipeline has a rotate stage all the same. *)
Lemma falsy_rotate_is_inserted :
  ToBoolean (get (<["rotate" := VNum 0]> (required_options ∪ defaultOptions))
                 "rotate") = false ∧
  transformer sample_host
    (<["rotate" := VNum 0]> (required_options ∪ defaultOptions))
  = Return [Rotate (VNum 0)].
Proof. split; vm_compute; reflexivity. Qed.

(** C5. A rotate value that is not one of 0, 90, 180, 270 raises no error
    and leaves the pipeline as it is without a rotate option: no rotate
    stage, same stages, same length.  A value in that set inserts a rotate
    stage with that angle. *)
Theorem rotate_whitelist (H : host) (opts : gmap string value) :
  (¬ cardinal_angle (get opts "rotate") →
   ∃ l, transformer H opts = Return l ∧
        transformer H (delete "rotate" opts) = Return l ∧
        ∀ v, Rotate v ∉ l) ∧
  (cardinal_angle (get opts "rotate") →
   ∃ l, transformer H opts = Return l ∧ Rotate (get opts "rotate") ∈ l).
Proof.
  destruct (transformer_characterised H opts) as (l & Hl & _ & Hin).
  split; intros Hc; exists l; (split; [exact Hl|]).
  - split.
    + rewrite <- Hl. apply transformer_delete_rotate.
      by apply includes_not_cardinal.
    + intros v Hv. apply Hin in Hv. simpl in Hv. tauto.
  - apply Hin. simpl. tauto.
Qed.

Lemma rotate_whitelist_witness :
  (∃ l, transformer sample_host
          (<["rotate" := VNum 45]> (required_options ∪ defaultOptions))
        = Return l ∧
        transformer sample_host
          (delete "rotate"
             (<["rotate" := VNum 45]> (required_options ∪ defaultOptions)))
        = Return l ∧
        ∀ v, Rotate v ∉ l) ∧
  (∃ l, transformer sample_host
          (<["rotate" := VNum 90]> (required_options ∪ defaultOptions))
        = Return l ∧
        Rotate (get (<["rotate" := VNum 90]> (required_options ∪ defaultOptions))
                    "rotate") ∈ l).
Proof.
  split.
  - apply (rotate_whitelist sample_host
             (<["rotate" := VNum 45]> (required_options ∪ defaultOptions))).
    intros Hc. apply includes_cardinal in Hc. vm_compute in Hc.
    discriminate Hc.
  - apply (rotate_whitelist sample_host
             (<["rotate" := VNum 90]> (required_options ∪ defaultOptions))).
    apply includes_cardinal. vm_compute. reflexivity.
Defined.

(** C6. The pipeline has a resize stage exactly when the resize toggle is
    truthy and a size is set (to a truthy value, as every size object is);
    the stage carries the configured width, height and option, and it is
    the first stage.  Without a size there is no resize stage, in
    particular under the default [resize: true]. *)
Theorem resize_guard (H : host) (opts : gmap string value) :
  ∃ l, transformer H opts = Return l ∧
    (∀ w h o, Resize w h o ∈ l ↔
       ToBoolean (get opts "resize") = true ∧
       ToBoolean (get opts "size") = true ∧
       w = get_field (get opts "size") "width" ∧
       h = get_field (get opts "size") "height" ∧
       o = get_field (get opts "size") "option") ∧
    (∀ size, ToBoolean (get opts "resize") = true →
       opts !! "size" = Some (VObj size) →
       ∃ rest, l = Resize (get size "width") (get size "height")
                          (get size "option") :: rest) ∧
    (opts !! "size" = None → ∀ w h o, Resize w h o ∉ l) ∧
    (∀ user, opts = user ∪ defaultOptions →
       user !! "resize" = None → user !! "size" = None →
       get opts "resize" = VBool true ∧ ∀ w h o, Resize w h o ∉ l).
Proof.
  destruct (transformer_characterised H opts) as (l & Hl & _ & Hin).
  exists l. split; [exact Hl|].
  assert (Habsent : opts !! "size" = None → ∀ w h o, Resize w h o ∉ l).
  { intros Hs w h o Hr. apply Hin in Hr. simpl in Hr.
    rewrite (get_absent _ _ Hs) in Hr. simpl in Hr.
    destruct Hr as (_ & Hr & _). discriminate Hr. }
  split; [intros w h o; apply Hin|]. split; [|split; [exact Habsent|]].
  - intros size Hr Hs.
    assert (Hsize : get opts "size" = VObj size) by (unfold get; by rewrite Hs).
    destruct (transformer_stages_head H opts Hr) as [rest Hrest];
      [by rewrite Hsize|].
    revert Hl. unfold transformer. rewrite Hrest, Hsize. simpl.
    destruct (ToBoolean (get opts "format")).
    + destruct (format_stage (get opts "format")); simpl; [|discriminate].
      intros [= <-]. eauto.
    + intros [= <-]. eauto.
  - intros user -> Hr Hs. split.
    + unfold get. rewrite lookup_union_r by done. reflexivity.
    + apply Habsent. rewrite lookup_union_r by done. reflexivity.
Qed.

Lemma resize_guard_witness :
  ∃ rest,
    transformer sample_host
      (<["size" := VObj {[ "width" := VNum 100; "height" := VNum 100 ]}]>
         (required_options ∪ defaultOptions))
    = Return (Resize (VNum 100) (VNum 100) VUndef :: rest).
Proof.
  destruct (resize_guard sample_host
      (<["size" := VObj {[ "width" := VNum 100; "height" := VNum 100 ]}]>
         (required_options ∪ defaultOptions)))
    as (l & Hl & _ & Hfirst & _).
  destruct (Hfirst {[ "width" := VNum 100; "height" := VNum 100 ]})
    as [rest ->]; [vm_compute; reflexivity | vm_compute; reflexivity |].
  exists rest. exact Hl.
Defined.

(** ** Uploads (C1, C7, C10) *)

Lemma elem_of_report e err : e ∈ report err ↔ ToBoolean err = true ∧ e = Cb [err].
Proof.
  unfold report. destruct (ToBoolean err).
  - rewrite list_elem_of_singleton. intuition congruence.
  - rewrite elem_of_nil. intuition congruence.
Qed.

Lemma elem_of_flat_map {A B} (f : A → list B) (l : list A) (y : B) :
  y ∈ flat_map f l ↔ ∃ x, x ∈ l ∧ y ∈ f x.
Proof.
  rewrite list_elem_of_In, in_flat_map.
  split; intros (x & Hx & Hy); exists x; split; by apply list_elem_of_In.
Qed.

(** The info listener prints or throws; it calls nothing else. *)
Lemma info_listener_events (H : host) this file gcName filename info e :
  e ∈ stream_listener H this file gcName filename (TransformInfo info) →
  (∃ x, e = Uncaught x) ∨ e = ConsoleInfo info.
Proof.
  destruct info; simpl;
    rewrite ?list_elem_of_singleton, ?elem_of_cons, ?elem_of_nil;
    intuition eauto.
Qed.

(** The success call made by the finish listener. *)
Lemma stream_listener_success (H : host) this file gcName filename ev r :
  Cb [VNull; r] ∈ stream_listener H this file gcName filename ev ↔
  ev = WriteFinish ∧
  ∃ mime, getFormat H (get (options this) "format") = Return mime ∧
    r = VObj {[ "mimetype" := js_or mime (get file "mimetype");
                "path" := VStr (encodeURI H
                  ("https://storage.googleapis.com/" +:+
                   ToString H (get (options this) "bucket") +:+ "/" +:+
                   ToString H gcName));
                "filename" := filename ]}.
Proof.
  destruct ev as [info| | |].
  2-4: simpl.
  - split; [|intros [? _]; discriminate].
    intros Hk. apply info_listener_events in Hk as [[x Hk] | Hk];
      discriminate Hk.
  - rewrite list_elem_of_singleton. split; [discriminate | intros [? _]; discriminate].
  - rewrite list_elem_of_singleton. split; [discriminate | intros [? _]; discriminate].
  - destruct (getFormat H _) as [mime|e]; rewrite list_elem_of_singleton.
    + split.
      * intros [= ->]. eauto.
      * intros (_ & mime' & [= <-] & ->). reflexivity.
    + split; [discriminate | intros (_ & ? & ? & _); discriminate].
Qed.

Lemma handleFile_success (H : host) this req file stream r :
  Cb [VNull; r] ∈ _handleFile H this req file stream ↔
  ∃ destErr destination fileErr filename mime,
    call_strategy H (getDestination this) req file = Return (destErr, destination) ∧
    call_strategy H (getFilename this) req file = Return (fileErr, filename) ∧
    getFormat H (get (options this) "format") = Return mime ∧
    WriteFinish ∈ stream ∧
    r = VObj {[ "mimetype" := js_or mime (get file "mimetype");
                "path" := VStr (encodeURI H
                  ("https://storage.googleapis.com/" +:+
                   ToString H (get (options this) "bucket") +:+ "/" +:+
                   ToString H (handleFile_gcName H destination filename)));
                "filename" := filename ]}.
Proof.
  unfold _handleFile.
  destruct (call_strategy H (getDestination this) req file)
    as [[destErr destination]|e].
  2:{ rewrite list_elem_of_singleton. split; [discriminate|].
      intros (? & ? & ? & ? & ? & ? & _). discriminate. }
  destruct (call_strategy H (getFilename this) req file)
    as [[fileErr filename]|e].
  2:{ rewrite elem_of_app, elem_of_report, list_elem_of_singleton.
      split; [intros [[_ ?]|?]; discriminate|].
      intros (? & ? & ? & ? & ? & _ & ? & _). discriminate. }
  destruct (getFormat H (get (options this) "format")) as [mime|e] eqn:Hfmt.
  2:{ rewrite !elem_of_app, !elem_of_report, list_elem_of_singleton.
      split; [intros [[_ ?]|[[_ ?]|?]]; discriminate|].
      intros (? & ? & ? & ? & ? & _ & _ & ? & _). discriminate. }
  destruct (transformer_returns H (options this)) as [l ->].
  rewrite !elem_of_app, !elem_of_report, !elem_of_cons, elem_of_flat_map.
  setoid_rewrite stream_listener_success. rewrite Hfmt.
  split.
  - intros [[_ ?]|[[_ ?]|[?|[?|[?|(ev & Hev & -> & mime' & [= <-] & ->)]]]]];
      try discriminate.
    by eexists _, _, _, _, _.
  - intros (? & ? & ? & ? & ? & [= <- <-] & [= <- <-] & [= <-] & Hfin & ->).
    do 5 right. exists WriteFinish. eauto.
Qed.

Lemma handleFile_write_stream (H : host) this req file stream
    destErr destination fileErr filename mime :
  call_strategy H (getDestination this) req file = Return (destErr, destination) →
  call_strategy H (getFilename this) req file = Return (fileErr, filename) →
  getFormat H (get (options this) "format") = Return mime →
  BucketFile (handleFile_gcName H destination filename)
    ∈ _handleFile H this req file stream ∧
  CreateWriteStream
    (VObj {[ "predefinedAcl" := get (options this) "acl";
             "metadata" :=
               VObj {[ "contentType" := js_or mime (get file "mimetype") ]} ]})
    ∈ _handleFile H this req file stream.
Proof.
  intros Hd Hf Hm. unfold _handleFile. rewrite Hd, Hf, Hm.
  destruct (transformer_returns H (options this)) as [l ->].
  rewrite !elem_of_app, !elem_of_cons. split; auto 10.
Qed.

(** An upload under the default naming: the key is the 32 hexadecimal
    digits of the random bytes, at the root of the bucket. *)
Example upload_with_default_naming :
  _handleFile sample_host
    (Engine (required_options ∪ defaultOptions)
            builtin_getFilename builtin_getDestination)
    VUndef png_file [WriteFinish] =
    [ BucketFile (VStr "000102030405060708090a0b0c0d0eff");
      Pipe [];
      CreateWriteStream
        (VObj {[ "predefinedAcl" := VStr "private";
                 "metadata" := VObj {[ "contentType" := VStr "image/png" ]} ]});
      Cb [VNull;
          VObj {[ "mimetype" := VStr "image/png";
                  "path" := VStr "https://storage.googleapis.com/b/000102030405060708090a0b0c0d0eff";
                  "filename" := VStr "000102030405060708090a0b0c0d0eff" ]}] ].
Proof. vm_compute. reflexivity. Qed.

(** Removing the file stored by [jpeg_engine]: the key is the one of the
    upload. *)
Example removal_uses_the_upload_key :
  _removeFile sample_host jpeg_engine VUndef
    {[ "filename" := VStr "avatar.png" ]} [VNull] =
    [ BucketFile (VStr "public/img/avatar.png"); FileDelete; Cb [VNull] ].
Proof. vm_compute. reflexivity. Qed.

(** The info listener on a payload it can read, and on [null]. *)
Example info_is_printed_twice :
  stream_listener sample_host jpeg_engine png_file (VStr "k") (VStr "f")
    (TransformInfo png_info)
  = [ConsoleInfo png_info; ConsoleInfo png_info].
Proof. vm_compute. reflexivity. Qed.

Example info_listener_throws_on_null :
  stream_listener sample_host jpeg_engine png_file (VStr "k") (VStr "f")
    (TransformInfo VNull)
  = [Uncaught (VError "TypeError"
       "Cannot read property 'format' of undefined or null")].
Proof. vm_compute. reflexivity. Qed.

(** C1, evaluated where the code departs from it.  The destination
    strategy reports an error; [_handleFile] passes it to the callback and
    carries on: it asks for the filename, opens the storage file and the
    write stream, and when the stream finishes calls the callback again,
    with a result.  The callback is called twice. *)
Theorem naming_error_does_not_abort :
  engine_of failing_destination_options = Some failing_destination_engine ∧
    _handleFile sample_host failing_destination_engine VUndef png_file
      [WriteFinish] =
      [ Cb [VError "Error" "no destination"];
        BucketFile (VStr "avatar.png");
        Pipe [];
        CreateWriteStream
          (VObj {[ "predefinedAcl" := VStr "private";
                   "metadata" := VObj {[ "contentType" := VStr "image/png" ]} ]});
        Cb [VNull;
            VObj {[ "mimetype" := VStr "image/png";
                    "path" := VStr "https://storage.googleapis.com/b/avatar.png";
                    "filename" := VStr "avatar.png" ]}] ] ∧
    callback_count
      (_handleFile sample_host failing_destination_engine VUndef png_file
         [WriteFinish]) = 2.
Proof. repeat split; vm_compute; reflexivity. Qed.

(** C7 (as amended). The callback receives a result exactly when both
    strategies answer, [getFormat] returns and the write stream finishes.
    The result is then [{mimetype, path, filename}], where [mimetype], like
    the [contentType] of the write stream's metadata, is the MIME lookup of
    the configured format when that lookup is truthy and the file's
    declared MIME type otherwise, and [path] is the URI-encoded
    [https://storage.googleapis.com/{bucket}/{objectKey}].  For a format
    given as a string the lookup is that of the string; for a string
    destination and filename the object key is that of section 4.1, without
    destination segment and slash exactly when the destination is empty. *)
Theorem upload_result (H : host) (this : engine) (req : value)
    (file : gmap string value) (stream : list stream_event) (r : value) :
  (Cb [VNull; r] ∈ _handleFile H this req file stream ↔
   ∃ destErr destination fileErr filename mime,
     call_strategy H (getDestination this) req file
       = Return (destErr, destination) ∧
     call_strategy H (getFilename this) req file = Return (fileErr, filename) ∧
     getFormat H (get (options this) "format") = Return mime ∧
     WriteFinish ∈ stream ∧
     CreateWriteStream
       (VObj {[ "predefinedAcl" := get (options this) "acl";
                "metadata" :=
                  VObj {[ "contentType" :=
                            if ToBoolean mime then mime
                            else get file "mimetype" ]} ]})
       ∈ _handleFile H this req file stream ∧
     r = VObj {[ "mimetype" :=
                   if ToBoolean mime then mime else get file "mimetype";
                 "path" := VStr (encodeURI H
                   ("https://storage.googleapis.com/" +:+
                    ToString H (get (options this) "bucket") +:+ "/" +:+
                    ToString H (handleFile_gcName H destination filename)));
                 "filename" := filename ]}) ∧
  (∀ s, getFormat H (VStr s) = Return (lookup H (VStr s))) ∧
  (∀ d f, ToString H (handleFile_gcName H (VStr d) (VStr f)) = object_key d f).
Proof.
  split; [|split].
  - rewrite handleFile_success. split.
    + intros (destErr & destination & fileErr & filename & mime &
              Hd & Hf & Hm & Hfin & ->).
      exists destErr, destination, fileErr, filename, mime.
      repeat (split; [done|]). split; [|done].
      by apply (handleFile_write_stream H this req file stream
                  destErr destination fileErr filename mime).
    + intros (destErr & destination & fileErr & filename & mime &
              Hd & Hf & Hm & Hfin & _ & ->).
      by exists destErr, destination, fileErr, filename, mime.
  - reflexivity.
  - intros d f. unfold handleFile_gcName, object_key.
    destruct d; reflexivity.
Qed.

Lemma upload_result_witness :
  Cb [VNull;
      VObj {[ "mimetype" := VStr "image/jpeg";
              "path" :=
                VStr "https://storage.googleapis.com/b/public/img/avatar.png";
              "filename" := VStr "avatar.png" ]}]
    ∈ _handleFile sample_host jpeg_engine VUndef png_file [WriteFinish].
Proof.
  apply (proj1 (upload_result sample_host jpeg_engine VUndef png_file
                  [WriteFinish] _)).
  exists VNull, (VStr "public/img"), VNull, (VStr "avatar.png"),
    (VStr "image/jpeg").
  split; [vm_compute; reflexivity|].
  split; [vm_compute; reflexivity|].
  split; [vm_compute; reflexivity|].
  split; [apply list_elem_of_here|].
  split; [|vm_compute; reflexivity].
  vm_compute. do 2 apply list_elem_of_further. apply list_elem_of_here.
Defined.

(** C7, as stated, fails for a format configured as an object without
    [type], which the pipeline hands to sharp as it is: the MIME lookup of
    the configured format is [false], and the result's mimetype and the
    stored contentType are the file's declared MIME type. *)
Lemma format_object_keeps_declared_mimetype :
  engine_of sharp_format_options = Some sharp_format_engine ∧
  get (options sharp_format_engine) "format" = VObj {[ "id" := VStr "jpeg" ]} ∧
  getFormat sample_host (VObj {[ "id" := VStr "jpeg" ]})
    = Return (VBool false) ∧
  _handleFile sample_host sharp_format_engine VUndef png_file [WriteFinish] =
    [ BucketFile (VStr "avatar.png");
      Pipe [ToFormat1 (VObj {[ "id" := VStr "jpeg" ]})];
      CreateWriteStream
        (VObj {[ "predefinedAcl" := VStr "private";
                 "metadata" := VObj {[ "contentType" := VStr "image/png" ]} ]});
      Cb [VNull;
          VObj {[ "mimetype" := VStr "image/png";
                  "path" := VStr "https://storage.googleapis.com/b/avatar.png";
                  "filename" := VStr "avatar.png" ]}] ].
Proof. repeat split; vm_compute; reflexivity. Qed.

(** What [getFormat] and the output-format stage do with a [{type}]
    object that has no [option]. *)
Lemma getFormat_type_only (H : host) (props : gmap string value) (t : value) :
  props !! "type" = Some t →
  getFormat H (VObj props) = Return (lookup H t).
Proof.
  intros Ht. unfold getFormat. simpl.
  rewrite bool_decide_eq_true_2 by (rewrite Ht; eauto). simpl.
  unfold get. by rewrite Ht.
Qed.

Lemma format_stage_type_only (props : gmap string value) :
  props !! "option" = None →
  format_stage (VObj props) = Return (ToFormat1 (VObj props)).
Proof.
  intros Ho. unfold format_stage. simpl.
  destruct (bool_decide (is_Some (props !! "type"))); simpl; [|done].
  rewrite bool_decide_eq_false_2; [done|].
  rewrite Ho. by intros [? ?].
Qed.

(** C10 (as amended). For a format object with a [type] and no [option]:
    [getFormat] answers with the MIME lookup of [format.type]; the stored
    contentType and the result's mimetype are that lookup when it is truthy
    and the file's declared MIME type otherwise; and the output-format
    stage, the last of the pipeline, is the one-argument call on the whole
    object, the pipeline having no two-argument call. *)
Theorem type_only_format (H : host) (props : gmap string value) (t : value) :
  props !! "type" = Some t → props !! "option" = None →
  getFormat H (VObj props) = Return (lookup H t) ∧
  (∀ this req file stream r,
     get (options this) "format" = VObj props →
     Cb [VNull; r] ∈ _handleFile H this req file stream →
     get_field r "mimetype"
       = (if ToBoolean (lookup H t) then lookup H t else get file "mimetype") ∧
     CreateWriteStream
       (VObj {[ "predefinedAcl" := get (options this) "acl";
                "metadata" :=
                  VObj {[ "contentType" :=
                            if ToBoolean (lookup H t) then lookup H t
                            else get file "mimetype" ]} ]})
       ∈ _handleFile H this req file stream) ∧
  (∀ opts, get opts "format" = VObj props →
     transformer H opts
       = Return (transformer_stages H opts ++ [ToFormat1 (VObj props)])%list ∧
     ∀ ty o,
       ToFormat2 ty o ∉ (transformer_stages H opts ++ [ToFormat1 (VObj props)])%list).
Proof.
  intros Ht Ho. split; [by apply getFormat_type_only|]. split.
  - intros this req file stream r Hfmt Hr.
    apply handleFile_success in Hr
      as (destErr & destination & fileErr & filename & mime &
          Hd & Hf & Hm & Hfin & ->).
    rewrite Hfmt, (getFormat_type_only H props t Ht) in Hm.
    injection Hm as <-. split.
    + simpl. apply get_insert_eq.
    + pose proof (handleFile_write_stream H this req file stream
        destErr destination fileErr filename (lookup H t) Hd Hf) as Hw.
      rewrite Hfmt, (getFormat_type_only H props t Ht) in Hw.
      by apply Hw.
  - intros opts Hfmt. split.
    + unfold transformer. rewrite Hfmt. simpl ToBoolean. cbv iota.
      by rewrite (format_stage_type_only props Ho).
    + intros ty o. rewrite elem_of_app, elem_of_transformer_stages,
        list_elem_of_singleton. simpl.
      intros [[Hp _] | Heq]; [by apply Hp | discriminate Heq].
Qed.

Lemma type_only_format_witness :
  getFormat sample_host (VObj {[ "type" := VStr "png" ]})
    = Return (VStr "image/png") ∧
  transformer sample_host (options png_type_engine)
    = Return [ToFormat1 (VObj {[ "type" := VStr "png" ]})].
Proof.
  destruct (type_only_format sample_host {[ "type" := VStr "png" ]}
              (VStr "png"))
    as (Hget & _ & Hstage);
    [vm_compute; reflexivity | vm_compute; reflexivity |].
  split; [exact Hget|].
  destruct (Hstage (options png_type_engine)) as [-> _];
    [vm_compute; reflexivity|].
  vm_compute. reflexivity.
Defined.

(** C10, as stated, fails when [format.type] has no MIME type: the lookup
    of [format.type] is [false], and the stored contentType and the result's
    mimetype are the file's declared MIME type. *)
Lemma type_without_mime_keeps_declared_mimetype :
  engine_of openslide_type_options = Some openslide_type_engine ∧
  get (options openslide_type_engine) "format"
    = VObj {[ "id" := VStr "jpeg"; "type" := VStr "openslide" ]} ∧
  lookup sample_host (VStr "openslide") = VBool false ∧
  _handleFile sample_host openslide_type_engine VUndef png_file [WriteFinish] =
    [ BucketFile (VStr "avatar.png");
      Pipe [ToFormat1 (VObj {[ "id" := VStr "jpeg"; "type" := VStr "openslide" ]})];
      CreateWriteStream
        (VObj {[ "predefinedAcl" := VStr "private";
                 "metadata" := VObj {[ "contentType" := VStr "image/png" ]} ]});
      Cb [VNull;
          VObj {[ "mimetype" := VStr "image/png";
                  "path" := VStr "https://storage.googleapis.com/b/avatar.png";
                  "filename" := VStr "avatar.png" ]}] ].
Proof. repeat split; vm_compute; reflexivity. Qed.

(** * Further properties *)

Lemma truthy_present (o : gmap string value) k :
  ToBoolean (get o k) = true → o !! k = Some (get o k).
Proof. unfold get. destruct (o !! k); simpl; [done | discriminate]. Qed.

Lemma get_union_l (o d : gmap string value) k v :
  o !! k = Some v → get (o ∪ d) k = v.
Proof. intros Hk. unfold get. by rewrite (lookup_union_Some_l _ _ _ _ Hk). Qed.

Lemma get_union_r (o d : gmap string value) k :
  o !! k = None → get (o ∪ d) k = get d k.
Proof. intros Hk. unfold get. by rewrite lookup_union_r. Qed.

Lemma constructor_ok env opts :
  ToBoolean (get opts "bucket") = true →
  ToBoolean (get opts "projectId") = true →
  ToBoolean (get opts "keyFilename") = true →
  constructor env opts =
    ([ Gcloud {[ "projectId" := get opts "projectId";
                 "keyFilename" := get opts "keyFilename" ]};
       StorageBucket (get opts "bucket") ],
     Return (built_engine opts)).
Proof.
  intros Hb Hp Hk. unfold constructor, js_or.
  rewrite Hb, Hp, Hk. simpl. rewrite Hb, Hp, Hk. reflexivity.
Qed.

Lemma engine_of_inv opts e :
  engine_of opts = Some e →
  ToBoolean (get opts "bucket") = true ∧
  ToBoolean (get opts "projectId") = true ∧
  ToBoolean (get opts "keyFilename") = true ∧
  e = built_engine opts.
Proof.
  unfold engine_of.
  destruct (ToBoolean (get opts "bucket")) eqn:Hb;
    [|destruct (constructor_falsy ∅ opts) as [m ->]; [auto | discriminate]].
  destruct (ToBoolean (get opts "projectId")) eqn:Hp;
    [|destruct (constructor_falsy ∅ opts) as [m ->]; [auto | discriminate]].
  destruct (ToBoolean (get opts "keyFilename")) eqn:Hk;
    [|destruct (constructor_falsy ∅ opts) as [m ->]; [auto | discriminate]].
  rewrite (constructor_ok ∅ opts Hb Hp Hk). intros [= <-]. done.
Qed.

(** X1. When the three required options are truthy, construction succeeds
    under every environment: the storage client is made from the
    [projectId] and [keyFilename] of the options and the bucket handle from
    their [bucket], which is also the bucket the engine keeps for the
    result's URL; the engine's options are the user's, with the defaults
    for the properties the user did not give. *)
Theorem construction_uses_the_options (env : gmap string string)
    (opts : gmap string value) :
  ToBoolean (get opts "bucket") = true →
  ToBoolean (get opts "projectId") = true →
  ToBoolean (get opts "keyFilename") = true →
  ∃ e,
    constructor env opts =
      ([ Gcloud {[ "projectId" := get opts "projectId";
                   "keyFilename" := get opts "keyFilename" ]};
         StorageBucket (get opts "bucket") ],
       Return e) ∧
    get (options e) "bucket" = get opts "bucket" ∧
    ∀ k, options e !! k =
           match opts !! k with Some v => Some v | None => defaultOptions !! k end.
Proof.
  intros Hb Hp Hk. exists (built_engine opts).
  split; [by apply constructor_ok|]. split.
  - simpl. apply get_union_l. by apply truthy_present.
  - intros k. simpl. rewrite lookup_union. by destruct (opts !! k), (defaultOptions !! k).
Qed.

Lemma construction_uses_the_options_witness :
  ∃ e,
    constructor other_environment required_options =
      ([ Gcloud {[ "projectId" := get required_options "projectId";
                   "keyFilename" := get required_options "keyFilename" ]};
         StorageBucket (get required_options "bucket") ],
       Return e) ∧
    get (options e) "bucket" = get required_options "bucket" ∧
    ∀ k, options e !! k =
           match required_options !! k with
           | Some v => Some v
           | None => defaultOptions !! k
           end.
Proof.
  apply (construction_uses_the_options other_environment required_options);
    vm_compute; reflexivity.
Defined.

Lemma handleFile_trace (H : host) this req file stream
    destErr destination fileErr filename mime :
  call_strategy H (getDestination this) req file = Return (destErr, destination) →
  call_strategy H (getFilename this) req file = Return (fileErr, filename) →
  getFormat H (get (options this) "format") = Return mime →
  ∃ stages, transformer H (options this) = Return stages ∧
    _handleFile H this req file stream =
      (report destErr ++ report fileErr ++
       BucketFile (handleFile_gcName H destination filename) ::
       Pipe stages ::
       CreateWriteStream
         (VObj {[ "predefinedAcl" := get (options this) "acl";
                  "metadata" :=
                    VObj {[ "contentType" := js_or mime (get file "mimetype") ]} ]}) ::
       flat_map (stream_listener H this file
                   (handleFile_gcName H destination filename) filename) stream)%list.
Proof.
  intros Hd Hf Hm. destruct (transformer_returns H (options this)) as [l Hl].
  exists l. split; [done|]. unfold _handleFile. by rewrite Hd, Hf, Hm, Hl.
Qed.

Lemma callback_count_app t1 t2 :
  callback_count (t1 ++ t2) = callback_count t1 + callback_count t2.
Proof. unfold callback_count. rewrite filter_app, length_app. lia. Qed.

Lemma callback_count_report err :
  callback_count (report err) = if ToBoolean err then 1 else 0.
Proof. unfold report. by destruct (ToBoolean err). Qed.





Lemma stream_listener_error (H : host) this file gcName filename ev e :
  Cb [e] ∈ stream_listener H this file gcName filename ev ↔
  ev = TransformError e ∨ ev = WriteError e.
Proof.
  destruct ev as [info| | |].
  2-4: simpl.
  - split; [|intros [?|?]; discriminate].
    intros Hk. apply info_listener_events in Hk as [[x Hk] | Hk];
      discriminate Hk.
  - rewrite list_elem_of_singleton. split; [intros [= ->]; auto | intros [[= ->]|?]; [done|discriminate]].
  - rewrite list_elem_of_singleton. split; [intros [= ->]; auto | intros [?|[= ->]]; [discriminate|done]].
  - destruct (getFormat H _); rewrite list_elem_of_singleton;
      (split; [discriminate | intros [?|?]; discriminate]).
Qed.

(** X3. When both strategies answer and [getFormat] returns, the callback
    is called with an error alone, [cb(e)], exactly for: a truthy error of
    the destination strategy, a truthy error of the filename strategy, an
    error event of the transform stream, an error event of the write
    stream. *)
Theorem reported_errors (H : host) (this : engine) (req : value)
    (file : gmap string value) (stream : list stream_event)
    (destErr destination fileErr filename mime e : value) :
  call_strategy H (getDestination this) req file = Return (destErr, destination) →
  call_strategy H (getFilename this) req file = Return (fileErr, filename) →
  getFormat H (get (options this) "format") = Return mime →
  (Cb [e] ∈ _handleFile H this req file stream ↔
   (ToBoolean destErr = true ∧ e = destErr) ∨
   (ToBoolean fileErr = true ∧ e = fileErr) ∨
   TransformError e ∈ stream ∨ WriteError e ∈ stream).
Proof.
  intros Hd Hf Hm.
  destruct (handleFile_trace H this req file stream _ _ _ _ _ Hd Hf Hm)
    as (stages & _ & ->).
  rewrite !elem_of_app, !elem_of_report, !elem_of_cons, elem_of_flat_map.
  setoid_rewrite stream_listener_error.
  split.
  - intros [[? [= ->]]|[[? [= ->]]|[?|[?|[?|(ev & Hev & [->| ->])]]]]];
      try discriminate; auto.
  - intros [[? ->]|[[? ->]|[?|?]]]; auto; do 5 right; eauto.
Qed.

Lemma reported_errors_witness :
  Cb [VError "Error" "bad image"]
    ∈ _handleFile sample_host jpeg_engine VUndef png_file
        [TransformError (VError "Error" "bad image")].
Proof.
  apply (proj2 (reported_errors sample_host jpeg_engine VUndef png_file
           [TransformError (VError "Error" "bad image")]
           VNull (VStr "public/img") VNull (VStr "avatar.png")
           (VStr "image/jpeg") (VError "Error" "bad image")
           ltac:(vm_compute; reflexivity) ltac:(vm_compute; reflexivity)
           ltac:(vm_compute; reflexivity))).
  right. right. left. apply list_elem_of_here.
Defined.

(** [getFormat] throws for [null], and for nothing else. *)
Lemma getFormat_throws (H : host) f :
  (∃ x, getFormat H f = Throw x) ↔ f = VNull.
Proof.
  unfold getFormat. destruct f; simpl; split;
    try (intros [e He]; discriminate He); try discriminate; try done.
  - eauto.
  - intros [e He]. case_bool_decide; discriminate He.
Qed.

(** X4. An engine configured with [format: null] is constructed without
    complaint, and every upload through it ends in an uncaught TypeError
    ([getFormat] asks [null] for its own property): no storage file is
    opened and the callback never receives a result. *)
Theorem null_format_throws (H : host) (opts : gmap string value)
    (this : engine) (req : value) (file : gmap string value)
    (stream : list stream_event) :
  engine_of opts = Some this → opts !! "format" = Some VNull →
  (∃ x, Uncaught x ∈ _handleFile H this req file stream) ∧
  (∀ k, BucketFile k ∉ _handleFile H this req file stream) ∧
  (∀ r, Cb [VNull; r] ∉ _handleFile H this req file stream).
Proof.
  intros He Hfmt. apply engine_of_inv in He as (_ & _ & _ & ->).
  assert (Hm : getFormat H (get (options (built_engine opts)) "format")
               = Throw (VError "TypeError"
                   "Cannot convert undefined or null to object")).
  { simpl. by rewrite (get_union_l _ _ _ _ Hfmt). }
  split; [|split].
  - unfold _handleFile.
    destruct (call_strategy H (getDestination _) req file) as [[destErr d]|x];
      [|exists x; apply list_elem_of_here].
    destruct (call_strategy H (getFilename _) req file) as [[fileErr f]|x].
    + rewrite Hm. eexists. rewrite !elem_of_app, list_elem_of_singleton. eauto.
    + exists x. rewrite elem_of_app, list_elem_of_singleton. eauto.
  - intros k. unfold _handleFile.
    destruct (call_strategy H (getDestination _) req file) as [[destErr d]|x];
      [|rewrite list_elem_of_singleton; discriminate].
    destruct (call_strategy H (getFilename _) req file) as [[fileErr f]|x];
      [rewrite Hm|];
      rewrite !elem_of_app, !elem_of_report, list_elem_of_singleton;
      intros Hk; repeat destruct Hk as [Hk | Hk];
      try discriminate Hk; destruct Hk as [_ Hk]; discriminate Hk.
  - intros r Hr. apply handleFile_success in Hr
      as (? & ? & ? & ? & ? & _ & _ & Hm' & _).
    rewrite Hm in Hm'. discriminate Hm'.
Qed.

Lemma null_format_throws_witness :
  (∃ x, Uncaught x ∈ _handleFile sample_host (built_engine null_format_options)
                       VUndef png_file [WriteFinish]) ∧
  (∀ k, BucketFile k ∉ _handleFile sample_host (built_engine null_format_options)
                         VUndef png_file [WriteFinish]) ∧
  (∀ r, Cb [VNull; r] ∉ _handleFile sample_host (built_engine null_format_options)
                          VUndef png_file [WriteFinish]).
Proof.
  apply (null_format_throws sample_host null_format_options);
    vm_compute; reflexivity.
Defined.

(** X5. A truthy [filename] option that is not a function (a string, for
    instance) passes construction and makes every upload end in an uncaught
    TypeError when [this.getFilename] is called: no storage file is opened
    and the callback never receives a result. *)
Theorem filename_must_be_a_function (H : host) (opts : gmap string value)
    (this : engine) (req : value) (file : gmap string value)
    (stream : list stream_event) :
  engine_of opts = Some this →
  ToBoolean (get opts "filename") = true →
  (∀ id, get opts "filename" ≠ VFun id) →
  (∃ x, Uncaught x ∈ _handleFile H this req file stream) ∧
  (∀ k, BucketFile k ∉ _handleFile H this req file stream) ∧
  (∀ r, Cb [VNull; r] ∉ _handleFile H this req file stream).
Proof.
  intros He Ht Hnf. apply engine_of_inv in He as (_ & _ & _ & ->).
  assert (Hf : ∀ req file,
    call_strategy H (getFilename (built_engine opts)) req file
    = Throw (VError "TypeError" "not a function")).
  { intros req' file'. simpl.
    rewrite (get_union_l _ _ _ _ (truthy_present _ _ Ht)), Ht.
    simpl. destruct (get opts "filename") eqn:Hv; try done.
    by destruct (Hnf id). }
  split; [|split].
  - unfold _handleFile.
    destruct (call_strategy H (getDestination _) req file) as [[destErr d]|x];
      [|exists x; apply list_elem_of_here].
    rewrite Hf. eexists. rewrite elem_of_app, list_elem_of_singleton. eauto.
  - intros k. unfold _handleFile.
    destruct (call_strategy H (getDestination _) req file) as [[destErr d]|x];
      [|rewrite list_elem_of_singleton; discriminate].
    rewrite Hf, elem_of_app, elem_of_report, list_elem_of_singleton.
    intros [[_ Hk] | Hk]; discriminate Hk.
  - intros r Hr. apply handleFile_success in Hr
      as (? & ? & ? & ? & ? & _ & Hf' & _).
    rewrite Hf in Hf'. discriminate Hf'.
Qed.

Lemma filename_must_be_a_function_witness :
  (∃ x, Uncaught x ∈ _handleFile sample_host
                       (built_engine string_filename_options)
                       VUndef png_file [WriteFinish]) ∧
  (∀ k, BucketFile k ∉ _handleFile sample_host
                         (built_engine string_filename_options)
                         VUndef png_file [WriteFinish]) ∧
  (∀ r, Cb [VNull; r] ∉ _handleFile sample_host
                          (built_engine string_filename_options)
                          VUndef png_file [WriteFinish]).
Proof.
  apply (filename_must_be_a_function sample_host string_filename_options).
  - vm_compute. reflexivity.
  - vm_compute. reflexivity.
  - intros id Hid. vm_compute in Hid. discriminate Hid.
Defined.

Lemma handleFile_write_stream_inv (H : host) this req file stream fo :
  CreateWriteStream fo ∈ _handleFile H this req file stream →
  ∃ mime, getFormat H (get (options this) "format") = Return mime ∧
    fo = VObj {[ "predefinedAcl" := get (options this) "acl";
                 "metadata" :=
                   VObj {[ "contentType" := js_or mime (get file "mimetype") ]} ]}.
Proof.
  unfold _handleFile.
  destruct (call_strategy H (getDestination this) req file) as [[destErr d]|x];
    [|rewrite list_elem_of_singleton; discriminate].
  destruct (call_strategy H (getFilename this) req file) as [[fileErr f]|x].
  2:{ rewrite elem_of_app, elem_of_report, list_elem_of_singleton.
      intros [[_ Hk] | Hk]; discriminate Hk. }
  destruct (getFormat H (get (options this) "format")) as [mime|x].
  2:{ rewrite !elem_of_app, !elem_of_report, list_elem_of_singleton.
      intros [[_ Hk] | [[_ Hk] | Hk]]; discriminate Hk. }
  destruct (transformer_returns H (options this)) as [l ->].
  rewrite !elem_of_app, !elem_of_report, !elem_of_cons, elem_of_flat_map.
  intros [[_ Hk] | [[_ Hk] | [Hk | [Hk | [Hk | (ev & _ & Hk)]]]]];
    try discriminate Hk.
  - injection Hk as ->. eauto.
  - exfalso. destruct ev as [info| | |]; [|simpl in Hk..].
    + apply info_listener_events in Hk as [[x Hk] | Hk]; discriminate Hk.
    + apply list_elem_of_singleton in Hk. discriminate.
    + apply list_elem_of_singleton in Hk. discriminate.
    + destruct (getFormat H _); apply list_elem_of_singleton in Hk; discriminate.
Qed.

(** X6. The write stream of an upload is opened with the [acl] the user
    configured, and with ['private'] when the user configured none. *)
Theorem write_stream_acl (H : host) (opts : gmap string value)
    (this : engine) (req : value) (file : gmap string value)
    (stream : list stream_event) (fo : value) :
  engine_of opts = Some this →
  CreateWriteStream fo ∈ _handleFile H this req file stream →
  get_field fo "predefinedAcl" = default (VStr "private") (opts !! "acl").
Proof.
  intros He Hfo. apply engine_of_inv in He as (_ & _ & _ & ->).
  apply handleFile_write_stream_inv in Hfo as (mime & _ & ->).
  simpl. rewrite get_insert_eq.
  destruct (opts !! "acl") as [v|] eqn:Ha; simpl.
  - by apply get_union_l.
  - by rewrite get_union_r.
Qed.

Lemma write_stream_acl_witness :
  get_field
    (VObj {[ "predefinedAcl" := VStr "private";
             "metadata" := VObj {[ "contentType" := VStr "image/jpeg" ]} ]})
    "predefinedAcl"
  = default (VStr "private") (jpeg_options !! "acl").
Proof.
  apply (write_stream_acl sample_host jpeg_options jpeg_engine VUndef png_file
           [WriteFinish]).
  - vm_compute. reflexivity.
  - vm_compute. do 2 apply list_elem_of_further. apply list_elem_of_here.
Defined.

(** X7. What the [destination] option of a constructed engine does at
    each upload and removal: a string is answered as it is; a falsy value
    (absent, or the empty string) gives the bucket root [''] ; a function is
    called; any other truthy value makes the call throw. *)
Theorem destination_option (H : host) (opts : gmap string value)
    (this : engine) (req : value) (file : gmap string value) :
  engine_of opts = Some this →
  (∀ d, get opts "destination" = VStr d →
     call_strategy H (getDestination this) req file = Return (VNull, VStr d)) ∧
  (ToBoolean (get opts "destination") = false →
     call_strategy H (getDestination this) req file = Return (VNull, VStr "")) ∧
  (∀ id, get opts "destination" = VFun id →
     call_strategy H (getDestination this) req file
       = Return (user_fn H id req file)) ∧
  (ToBoolean (get opts "destination") = true →
   (∀ d, get opts "destination" ≠ VStr d) →
   (∀ id, get opts "destination" ≠ VFun id) →
   ∃ x, call_strategy H (getDestination this) req file = Throw x).
Proof.
  intros He. apply engine_of_inv in He as (_ & _ & _ & ->). simpl.
  repeat split.
  - intros d ->. reflexivity.
  - intros Ht.
    destruct (get opts "destination") as [| | | |s| | |]; simpl in *;
      try rewrite Ht; try done.
    destruct s; [done | discriminate].
  - intros id ->. reflexivity.
  - intros Ht Hs Hf.
    destruct (get opts "destination") as [| | | |s| | |id]; simpl in *;
      try discriminate; try rewrite Ht; eauto.
    + by destruct (Hs s).
    + by destruct (Hf id).
Qed.

Lemma destination_option_witness :
  call_strategy sample_host (getDestination jpeg_engine) VUndef png_file
  = Return (VNull, VStr "public/img").
Proof.
  apply (proj1 (destination_option sample_host jpeg_options jpeg_engine
                  VUndef png_file ltac:(vm_compute; reflexivity))).
  vm_compute. reflexivity.
Defined.

(** X8. Whenever the destination strategy answers, [_removeFile] asks the
    storage client to delete the object at the key computed from what the
    strategy gave, also when the strategy reported an error: the callback
    is then called twice, with the error and with the reply to the
    delete, and once otherwise. *)
Theorem removal_deletes_after_error (H : host) (this : engine) (req : value)
    (file : gmap string value) (reply : list value)
    (destErr destination : value) :
  call_strategy H (getDestination this) req file = Return (destErr, destination) →
  BucketFile (removeFile_gcName H destination file)
    ∈ _removeFile H this req file reply ∧
  FileDelete ∈ _removeFile H this req file reply ∧
  callback_count (_removeFile H this req file reply)
    = if ToBoolean destErr then 2 else 1.
Proof.
  intros Hd. unfold _removeFile. rewrite Hd.
  rewrite !elem_of_app, !elem_of_cons, callback_count_app, callback_count_report.
  repeat split; auto. by destruct (ToBoolean destErr).
Qed.

Lemma removal_deletes_after_error_witness :
  BucketFile (removeFile_gcName sample_host VUndef
                {[ "filename" := VStr "avatar.png" ]})
    ∈ _removeFile sample_host failing_destination_engine VUndef
        {[ "filename" := VStr "avatar.png" ]} [VNull] ∧
  FileDelete ∈ _removeFile sample_host failing_destination_engine VUndef
                 {[ "filename" := VStr "avatar.png" ]} [VNull] ∧
  callback_count (_removeFile sample_host failing_destination_engine VUndef
                    {[ "filename" := VStr "avatar.png" ]} [VNull])
    = if ToBoolean (VError "Error" "no destination") then 2 else 1.
Proof.
  apply (removal_deletes_after_error sample_host failing_destination_engine
           VUndef {[ "filename" := VStr "avatar.png" ]} [VNull]
           (VError "Error" "no destination") VUndef).
  vm_compute. reflexivity.
Defined.

Lemma removeFile_bucket_file (H : host) this req file reply k :
  BucketFile k ∈ _removeFile H this req file reply →
  ∃ destErr destination,
    call_strategy H (getDestination this) req file = Return (destErr, destination) ∧
    k = removeFile_gcName H destination file.
Proof.
  unfold _removeFile.
  destruct (call_strategy H (getDestination this) req file) as [[destErr d]|x];
    [|rewrite list_elem_of_singleton; discriminate].
  rewrite elem_of_app, elem_of_report, !elem_of_cons, elem_of_nil.
  intros [[_ Hk] | [Hk | [Hk | [Hk | []]]]]; try discriminate Hk.
  injection Hk as ->. eauto.
Qed.

Lemma gcName_agree (H : host) destination (file : gmap string value) :
  removeFile_gcName H destination file
  = handleFile_gcName H destination (get file "filename").
Proof. reflexivity. Qed.

Lemma call_strategy_fixed (H : host) s req file req' file' :
  (∀ id, s ≠ user_strategy (VFun id)) →
  call_strategy H s req file = call_strategy H s req' file'.
Proof.
  intros Hs. destruct s as [| | |f]; try reflexivity.
  destruct f; try reflexivity. by destruct (Hs id).
Qed.

(** ** The key handed to the storage client (C2) *)

(** The listeners open no storage file. *)
Lemma listeners_open_nothing (H : host) this file gcName filename stream k :
  BucketFile k ∉ flat_map (stream_listener H this file gcName filename) stream.
Proof.
  rewrite elem_of_flat_map. intros (ev & _ & Hk).
  destruct ev as [info| | |]; [|simpl in Hk..].
  - apply info_listener_events in Hk as [[x Hk] | Hk]; discriminate Hk.
  - apply list_elem_of_singleton in Hk. discriminate Hk.
  - apply list_elem_of_singleton in Hk. discriminate Hk.
  - destruct (getFormat H _); apply list_elem_of_singleton in Hk;
      discriminate Hk.
Qed.

(** C2. For all destination strings [d] and filenames [f], the object key
    that [_handleFile] hands to [gcsBucket.file] is [f] when [d] is empty
    and [d + "/" + f] otherwise, and it is the only key the upload opens;
    [_removeFile], for the same destination and a stored descriptor named
    [f], hands [gcsBucket.file] that same key and no other. *)
Theorem object_key_rule (H : host) (this : engine) (req req' : value)
    (file stored : gmap string value) (stream : list stream_event)
    (reply : list value) (d f : string)
    (destErr fileErr mime destErr' : value) :
  call_strategy H (getDestination this) req file = Return (destErr, VStr d) →
  call_strategy H (getFilename this) req file = Return (fileErr, VStr f) →
  getFormat H (get (options this) "format") = Return mime →
  call_strategy H (getDestination this) req' stored = Return (destErr', VStr d) →
  get stored "filename" = VStr f →
  (∀ k, BucketFile k ∈ _handleFile H this req file stream
        ↔ k = VStr (object_key d f)) ∧
  (∀ k, BucketFile k ∈ _removeFile H this req' stored reply
        ↔ k = VStr (object_key d f)).
Proof.
  intros Hd Hf Hm Hd' Hname.
  assert (Hkey : handleFile_gcName H (VStr d) (VStr f) = VStr (object_key d f)).
  { unfold handleFile_gcName, object_key. destruct d; reflexivity. }
  split; intros k.
  - destruct (handleFile_trace H this req file stream _ _ _ _ _ Hd Hf Hm)
      as (stages & _ & ->).
    rewrite !elem_of_app, !elem_of_report, !elem_of_cons, Hkey. split.
    + intros [[_ Hk] | [[_ Hk] | [Hk | [Hk | [Hk | Hk]]]]];
        try discriminate Hk.
      * by injection Hk.
      * by apply listeners_open_nothing in Hk.
    + intros ->. auto.
  - unfold _removeFile. rewrite Hd', gcName_agree, Hname, Hkey.
    rewrite elem_of_app, elem_of_report, !elem_of_cons, elem_of_nil. split.
    + intros [[_ Hk] | [Hk | [Hk | [Hk | []]]]]; try discriminate Hk.
      by injection Hk.
    + intros ->. auto.
Qed.

Lemma object_key_rule_witness :
  BucketFile (VStr "public/img/avatar.png")
    ∈ _handleFile sample_host jpeg_engine VUndef png_file [WriteFinish] ∧
  BucketFile (VStr "public/img/avatar.png")
    ∈ _removeFile sample_host jpeg_engine VUndef
        {[ "filename" := VStr "avatar.png" ]} [VNull].
Proof.
  destruct (object_key_rule sample_host jpeg_engine VUndef VUndef png_file
              {[ "filename" := VStr "avatar.png" ]} [WriteFinish] [VNull]
              "public/img" "avatar.png" VNull VNull (VStr "image/jpeg") VNull
              ltac:(vm_compute; reflexivity) ltac:(vm_compute; reflexivity)
              ltac:(vm_compute; reflexivity) ltac:(vm_compute; reflexivity)
              ltac:(vm_compute; reflexivity))
    as [Hupload Hremoval].
  split; [apply Hupload | apply Hremoval]; vm_compute; reflexivity.
Defined.

Lemma result_filename (m p f : value) :
  get {[ "mimetype" := m; "path" := p; "filename" := f ]} "filename" = f.
Proof.
  unfold get.
  by rewrite lookup_insert_ne, lookup_insert_ne, lookup_singleton_eq.
Qed.

(** X9. Upload and removal round trip.  For an engine whose destination
    is not a user function (a string, or the default), removing a
    descriptor that carries the filename of a successful upload's result
    addresses a key that this upload opened, whatever the request and the
    other fields of the descriptor are. *)
Theorem removal_finds_the_uploaded_object (H : host) (this : engine)
    (req req' : value) (file stored : gmap string value)
    (stream : list stream_event) (reply : list value) (r k : value) :
  (∀ id, getDestination this ≠ user_strategy (VFun id)) →
  Cb [VNull; r] ∈ _handleFile H this req file stream →
  get stored "filename" = get_field r "filename" →
  BucketFile k ∈ _removeFile H this req' stored reply →
  BucketFile k ∈ _handleFile H this req file stream.
Proof.
  intros Hfix Hr Hname Hk.
  apply handleFile_success in Hr
    as (destErr & destination & fileErr & filename & mime &
        Hd & Hf & Hm & _ & ->).
  apply removeFile_bucket_file in Hk as (destErr' & destination' & Hd' & ->).
  rewrite (call_strategy_fixed H _ req' stored req file Hfix), Hd in Hd'.
  injection Hd' as <- <-.
  rewrite gcName_agree, Hname. simpl. rewrite result_filename.
  by apply (handleFile_write_stream H this req file stream
              destErr destination fileErr filename mime).
Qed.

Lemma removal_finds_the_uploaded_object_witness :
  BucketFile (VStr "public/img/avatar.png")
    ∈ _handleFile sample_host jpeg_engine VUndef png_file [WriteFinish].
Proof.
  apply (removal_finds_the_uploaded_object sample_host jpeg_engine VUndef VUndef
           png_file {[ "filename" := VStr "avatar.png" ]} [WriteFinish] [VNull]
           (VObj {[ "mimetype" := VStr "image/jpeg";
                    "path" :=
                      VStr "https://storage.googleapis.com/b/public/img/avatar.png";
                    "filename" := VStr "avatar.png" ]})).
  - intros id Hid. vm_compute in Hid. discriminate Hid.
  - vm_compute. do 3 apply list_elem_of_further. apply list_elem_of_here.
  - vm_compute. reflexivity.
  - vm_compute. apply list_elem_of_here.
Defined.

(** X10. When the filename strategy reports an error and no filename (as
    the default strategy does when the random source fails) under a
    non-empty string destination [d], the upload reports the error and goes
    on to open the object [d + "/undefined"]. *)
Theorem failed_filename_is_written_as_undefined (H : host) (this : engine)
    (req : value) (file : gmap string value) (stream : list stream_event)
    (destErr fileErr mime : value) (d : string) :
  call_strategy H (getDestination this) req file = Return (destErr, VStr d) →
  call_strategy H (getFilename this) req file = Return (fileErr, VUndef) →
  getFormat H (get (options this) "format") = Return mime →
  ToBoolean fileErr = true → d ≠ "" →
  Cb [fileErr] ∈ _handleFile H this req file stream ∧
  BucketFile (VStr (d +:+ "/undefined")) ∈ _handleFile H this req file stream.
Proof.
  intros Hd Hf Hm Ht Hne.
  destruct (handleFile_trace H this req file stream _ _ _ _ _ Hd Hf Hm)
    as (stages & _ & ->).
  rewrite !elem_of_app, !elem_of_report, !elem_of_cons. split; [auto|].
  right. right. left. f_equal. unfold handleFile_gcName. simpl.
  destruct d; [done | reflexivity].
Qed.

Lemma failed_filename_is_written_as_undefined_witness :
  Cb [VError "Error" "no entropy"]
    ∈ _handleFile failing_random_host default_naming_engine VUndef png_file
        [WriteFinish] ∧
  BucketFile (VStr ("public/img" +:+ "/undefined"))
    ∈ _handleFile failing_random_host default_naming_engine VUndef png_file
        [WriteFinish].
Proof.
  apply (failed_filename_is_written_as_undefined failing_random_host
           default_naming_engine VUndef png_file [WriteFinish]
           VNull (VError "Error" "no entropy") (VBool false) "public/img").
  - vm_compute. reflexivity.
  - vm_compute. reflexivity.
  - vm_compute. reflexivity.
  - vm_compute. reflexivity.
  - discriminate.
Defined.

(** X11. With the defaults alone the pipeline is empty: for user options
    that set none of the options [transformer] reads, the merged options
    compile to no stage at all. *)
Theorem default_pipeline_is_passthrough (H : host) (user : gmap string value) :
  (∀ k, k ∈ transform_keys → user !! k = None) →
  transformer H (user ∪ defaultOptions) = Return [].
Proof.
  intros Hk. apply Forall_forall in Hk. unfold transform_keys in Hk.
  repeat (apply Forall_cons in Hk as [? Hk]).
  unfold transformer, transformer_stages.
  rewrite !get_union_r by assumption.
  vm_compute. reflexivity.
Qed.

Lemma default_pipeline_is_passthrough_witness :
  transformer sample_host (required_options ∪ defaultOptions) = Return [].
Proof.
  apply (default_pipeline_is_passthrough sample_host required_options).
  apply Forall_forall. unfold transform_keys.
  repeat (apply Forall_cons; split; [vm_compute; reflexivity|]).
  apply Forall_nil. done.
Defined.

(** X12. The two spellings of the colourspace option: a truthy
    [toColourspace] is the one passed to sharp, also when [toColorspace] is
    set; [toColorspace] is passed when [toColourspace] is falsy; and the
    pipeline never has two colourspace stages: two places of the pipeline
    that hold a colourspace stage are the same place. *)
Theorem colourspace_alias_precedence (H : host) (opts : gmap string value) :
  ∃ l, transformer H opts = Return l ∧
    (ToBoolean (get opts "toColourspace") = true →
     ToColourspace (get opts "toColourspace") ∈ l) ∧
    (ToBoolean (get opts "toColourspace") = false →
     ToBoolean (get opts "toColorspace") = true →
     ToColourspace (get opts "toColorspace") ∈ l) ∧
    (∀ i j v v',
       l !! i = Some (ToColourspace v) → l !! j = Some (ToColourspace v') →
       i = j ∧ v = v').
Proof.
  destruct (transformer_characterised H opts) as (l & Hl & Hpos & Hin).
  exists l. split; [done|]. split; [|split].
  - intros Ht. apply Hin. simpl. unfold js_or. rewrite Ht. auto.
  - intros Hf Ht. apply Hin. simpl. unfold js_or. rewrite Hf. auto.
  - intros i j v v' Hi Hj. split.
    + assert (Hnd : NoDup (position <$> l))
        by (apply (sublist_NoDup _ (seq 1 26)); [apply NoDup_seq | done]).
      apply (NoDup_lookup _ i j 24 Hnd); rewrite list_lookup_fmap.
      * by rewrite Hi.
      * by rewrite Hj.
    + apply list_elem_of_lookup_2 in Hi, Hj.
      apply Hin in Hi as [_ ->]. by apply Hin in Hj as [_ ->].
Qed.

Lemma format_stage_structured (props : gmap string value) t o :
  props !! "type" = Some t → props !! "option" = Some o →
  format_stage (VObj props) = Return (ToFormat2 t o).
Proof.
  intros Ht Ho. unfold format_stage. simpl.
  rewrite !bool_decide_eq_true_2 by (rewrite ?Ht, ?Ho; eauto). simpl.
  unfold get. by rewrite Ht, Ho.
Qed.

(** X13. For the two documented forms of the format option the MIME type
    is looked up under the name sharp is given: a non-empty string [s] ends
    the pipeline with [toFormat(s)] and is looked up as [s]; an object with
    both [type] and [option] ends it with [toFormat(type, option)] and is
    looked up as [type]. *)
Theorem format_forms_agree (H : host) (opts : gmap string value) :
  (∀ s, get opts "format" = VStr s → s ≠ "" →
     transformer H opts
       = Return (transformer_stages H opts ++ [ToFormat1 (VStr s)])%list ∧
     getFormat H (get opts "format") = Return (lookup H (VStr s))) ∧
  (∀ props t o, get opts "format" = VObj props →
     props !! "type" = Some t → props !! "option" = Some o →
     transformer H opts
       = Return (transformer_stages H opts ++ [ToFormat2 t o])%list ∧
     getFormat H (get opts "format") = Return (lookup H t)).
Proof.
  split.
  - intros s Hs Hne. unfold transformer. rewrite Hs. simpl.
    destruct s; [done|]. done.
  - intros props t o Hf Ht Ho. unfold transformer. rewrite Hf. simpl ToBoolean.
    cbv iota. rewrite (format_stage_structured props t o Ht Ho). split; [done|].
    by apply getFormat_type_only.
Qed.

Lemma hex_digit_is_hex (n : N) : (n < 16)%N → is_hex_digit (hex_digit n) = true.
Proof.
  intros Hn. unfold hex_digit.
  destruct n as [|p]; [reflexivity|].
  do 4 (destruct p as [p|p|]; try reflexivity; try lia).
Qed.

Lemma toString_hex_shape (raw : list Byte.byte) :
  String.length (toString_hex raw) = 2 * length raw ∧
  forallb is_hex_digit (String.list_ascii_of_string (toString_hex raw)) = true.
Proof.
  induction raw as [|b raw [IHl IHd]]; [done|].
  change (toString_hex (b :: raw)) with
    (String (hex_digit (Byte.to_N b / 16))
       (String (hex_digit (Byte.to_N b mod 16)) (toString_hex raw))).
  cbn [String.length String.list_ascii_of_string forallb length].
  split; [rewrite IHl; lia|].
  rewrite IHd, !hex_digit_is_hex; [done| |].
  - apply N.mod_lt. done.
  - apply N.Div0.div_lt_upper_bound. destruct b; vm_compute; done.
Qed.

(** X14. The default filename strategy asks the random source for 16
    bytes.  When the source reports a truthy error the strategy answers
    with that error and no filename; otherwise, the source having given the
    16 bytes, it answers with a string of exactly 32 lower-case hexadecimal
    digits. *)
Theorem default_filename (H : host) (req : value) (file : gmap string value)
    (err : value) (raw : list Byte.byte) :
  pseudoRandomBytes H 16 = (err, raw) →
  (ToBoolean err = true →
   call_strategy H builtin_getFilename req file = Return (err, VUndef)) ∧
  (ToBoolean err = false → length raw = 16 →
   ∃ s, call_strategy H builtin_getFilename req file = Return (err, VStr s) ∧
        String.length s = 32 ∧
        forallb is_hex_digit (String.list_ascii_of_string s) = true).
Proof.
  intros Hr. simpl. rewrite Hr. split; intros ->; [done|]. intros Hlen.
  eexists. split; [done|].
  destruct (toString_hex_shape raw) as [Hl Hd]. by rewrite Hl, Hlen.
Qed.

Lemma default_filename_witness :
  ∃ s, call_strategy sample_host builtin_getFilename VUndef png_file
         = Return (VNull, VStr s) ∧
       String.length s = 32 ∧
       forallb is_hex_digit (String.list_ascii_of_string s) = true.
Proof.
  apply (proj2 (default_filename sample_host VUndef png_file VNull
                  (snd (pseudoRandomBytes sample_host 16))
                  ltac:(vm_compute; reflexivity)));
    vm_compute; reflexivity.
Defined.
